(** * fastbots-mvp: the bot / document / chat flow of [server.js]

    A shallow embedding of the Express handlers of [server.js] (the variant
    that reads [HF_API_KEY] once at start-up and exports [app]), together
    with the properties of the registry, the ingestor, the context scan and
    the reply resolver.

    Modelling conventions.
    - A JavaScript string is a [string]: a sequence of code units, here the
      code units 0..255.  [toLowerCase] is exact on that range.
    - A file is its bytes, one [ascii] per byte.  Reading it as text decodes
      UTF-8 ([Utf8.decode]); the statements about a stored text are made for
      the files whose text lies within the code units 0..255.
    - A JSON number is an integer; [Json.stringify] prints it in digits, as
      the runtime does for the safe integers ([Json.safe]).
    - The two SQLite tables are a [gmap] keyed by the primary key [id]
      (table [bots]) and a list in insertion order (table [documents]).
    - Request bodies are well typed: a field is either absent ([None]) or
      holds a value of the type the data model gives it.
    - What the process cannot decide by itself ([uuidv4()], [Date.now()],
      the answer of [axios.post], the result of [pdf]) is read from an
      [env] record handed to each request.
    - Handlers run in a state-and-exception monad over the [world]
      (database and upload directory). *)

From Stdlib Require Import String Ascii ZArith List Lia DecimalString.
From stdpp Require Import base gmap strings list.

Local Open Scope string_scope.

(** ** JavaScript string primitives *)

Module JS.

Definition dquote : ascii := "034"%char.
Definition backslash : ascii := "092"%char.
Definition newline : ascii := "010"%char.
Definition space : ascii := "032"%char.

(** One-character string. *)
Definition chr (c : ascii) : string := String c EmptyString.

(** A string is truthy when it is not empty. *)
Definition truthy (s : string) : bool :=
  match s with EmptyString => false | String _ _ => true end.

(** [a || b] on strings. *)
Definition or_else (a b : string) : string := if truthy a then a else b.

(** [a || b] when [a] may be [undefined]. *)
Definition opt_or (a : option string) (b : string) : string :=
  match a with Some s => or_else s b | None => b end.

(** [a || b] when [a] is an array or [undefined]: every array is truthy. *)
Definition arr_or {A} (a : option (list A)) (b : list A) : list A :=
  match a with Some l => l | None => b end.

(** [!a] for a string that may be [undefined]. *)
Definition falsy (a : option string) : bool :=
  match a with Some s => negb (truthy s) | None => true end.

(** Upper-case letters among the code units 0..255: A-Z, and U+00C0..U+00DE
    without the multiplication sign U+00D7. *)
Definition is_upper (c : ascii) : bool :=
  let n := N_of_ascii c in
  ((65 <=? n) && (n <=? 90) || (192 <=? n) && (n <=? 222) && negb (n =? 215))%N.

Definition lower_char (c : ascii) : ascii :=
  if is_upper c then ascii_of_N (N_of_ascii c + 32) else c.

Fixpoint toLowerCase (s : string) : string :=
  match s with
  | EmptyString => EmptyString
  | String c r => String (lower_char c) (toLowerCase r)
  end.

Fixpoint startsWith (s p : string) : bool :=
  match p, s with
  | EmptyString, _ => true
  | String a p', String b s' => Ascii.eqb a b && startsWith s' p'
  | String _ _, EmptyString => false
  end.

(** [s.includes(needle)] *)
Fixpoint includes (s needle : string) : bool :=
  startsWith s needle
  || match s with
     | EmptyString => false
     | String _ r => includes r needle
     end.

(** [s.endsWith(suffix)] *)
Fixpoint endsWith (s suffix : string) : bool :=
  String.eqb s suffix
  || match s with
     | EmptyString => false
     | String _ r => endsWith r suffix
     end.

(** [s.split(sep)] for a one-character separator; never the empty list. *)
Fixpoint split (sep : ascii) (s : string) : list string :=
  match s with
  | EmptyString => [EmptyString]
  | String c r =>
      if Ascii.eqb c sep then EmptyString :: split sep r
      else match split sep r with
           | h :: t => String c h :: t
           | [] => [chr c]
           end
  end.

(** [l.join(sep)] *)
Fixpoint join (sep : string) (l : list string) : string :=
  match l with
  | [] => EmptyString
  | [x] => x
  | x :: r => x +:+ sep +:+ join sep r
  end.

(** [s.slice(0, n)] *)
Fixpoint slice0 (n : nat) (s : string) : string :=
  match n, s with
  | S k, String c r => String c (slice0 k r)
  | _, _ => EmptyString
  end.

(** [l[0]] of a list of strings; [split] never returns the empty list. *)
Definition first (l : list string) : string :=
  match l with h :: _ => h | [] => EmptyString end.

End JS.

(** ** Exceptions *)

(** A thrown JavaScript error: its [name] and its [message]. *)
Record exn := Exn { ename : string; emessage : string }.

Inductive outcome (A : Type) : Type :=
| Ret (a : A)
| Throw (e : exn).
Arguments Ret {A} a.
Arguments Throw {A} e.

(** [String(err)] *)
Definition exn_to_string (e : exn) : string :=
  if JS.truthy (emessage e) then ename e +:+ ": " +:+ emessage e else ename e.

(** ** JSON values and the JSON codec *)

Set Warnings "-register-all".

(** A parsed JSON value.  Numbers are the integers; the properties of an
    object are listed in the order the runtime enumerates them.  What is said
    of the text of a number is said of the safe integers, below 2^53 in
    absolute value, which the runtime prints digit by digit ([Json.safe]). *)
Inductive json :=
| JNull
| JBool (b : bool)
| JNum (n : Z)
| JStr (s : string)
| JArr (items : list json)
| JObj (props : list (string * json)).

Module Json.

Definition truthy (v : json) : bool :=
  match v with
  | JNull => false
  | JBool b => b
  | JNum n => negb (n =? 0)%Z
  | JStr s => JS.truthy s
  | JArr _ | JObj _ => true
  end.

Definition hex_digit (n : N) : ascii :=
  if (n <? 10)%N then ascii_of_N (48 + n) else ascii_of_N (87 + n).

(** The characters [JSON.stringify] writes for one code unit. *)
Definition escape_char (c : ascii) : string :=
  let n := N_of_ascii c in
  if (n =? 8)%N then "\b"
  else if (n =? 9)%N then "\t"
  else if (n =? 10)%N then "\n"
  else if (n =? 12)%N then "\f"
  else if (n =? 13)%N then "\r"
  else if (n =? 34)%N then String JS.backslash (JS.chr JS.dquote)
  else if (n =? 92)%N then "\\"
  else if (n <? 32)%N then
    "\u00" +:+ String (hex_digit (n / 16)) (JS.chr (hex_digit (n mod 16)))
  else JS.chr c.

Fixpoint escape (s : string) : string :=
  match s with
  | EmptyString => EmptyString
  | String c r => escape_char c +:+ escape r
  end.

Definition quote (s : string) : string :=
  String JS.dquote (escape s +:+ JS.chr JS.dquote).

(** [JSON.stringify(v)] *)
Fixpoint stringify (v : json) : string :=
  match v with
  | JNull => "null"
  | JBool true => "true"
  | JBool false => "false"
  | JNum n => NilZero.string_of_int (Z.to_int n)
  | JStr s => quote s
  | JArr items => "[" +:+ JS.join "," (List.map stringify items) +:+ "]"
  | JObj props =>
      "{" +:+ JS.join ","
               (List.map (fun kv => quote (fst kv) +:+ ":" +:+ stringify (snd kv)) props)
          +:+ "}"
  end.

(** [JSON.stringify(l)] for an array of strings. *)
Definition stringify_strings (l : list string) : string :=
  stringify (JArr (List.map JStr l)).

(** [Number.isSafeInteger(n)] *)
Definition safe_integer (n : Z) : bool := (Z.abs n <? 9007199254740992)%Z.

(** Every number in [v] is a safe integer: [stringify] then prints what
    [JSON.stringify] prints. *)
Fixpoint safe (v : json) : bool :=
  match v with
  | JNull | JBool _ | JStr _ => true
  | JNum n => safe_integer n
  | JArr items => forallb safe items
  | JObj props => forallb (fun kv => safe (snd kv)) props
  end.

(** *** Reading back an array of strings

    The column [quickReplies] only ever holds the text of an array of
    strings.  [parse_strings] is [JSON.parse] on such texts: a one-pass
    automaton over the characters.  [None] stands for a [SyntaxError], for
    a value that is not an array of strings, and for a [\u] escape above
    U+00FF. *)

Inductive pstate :=
| PStart                              (* before the opening bracket *)
| PFirst                              (* after it: a string or the closing bracket *)
| PValue                              (* after a comma: a string *)
| PStr (cur : string)                 (* inside a string literal *)
| PEsc (cur : string)                 (* after a backslash *)
| PHex (cur : string) (k : nat) (v : N)   (* inside a \u escape, k digits read *)
| PNext                               (* after a string: comma or closing bracket *)
| PEnd.                               (* after the closing bracket *)

Definition is_ws (c : ascii) : bool :=
  let n := N_of_ascii c in ((n =? 32) || (n =? 9) || (n =? 10) || (n =? 13))%N.

Definition hex_value (c : ascii) : option N :=
  let n := N_of_ascii c in
  if ((48 <=? n) && (n <=? 57))%N then Some (n - 48)%N
  else if ((97 <=? n) && (n <=? 102))%N then Some (n - 87)%N
  else if ((65 <=? n) && (n <=? 70))%N then Some (n - 55)%N
  else None.

(** The code unit a one-letter escape stands for. *)
Definition unescape (c : ascii) : option ascii :=
  let n := N_of_ascii c in
  if (n =? 34)%N then Some JS.dquote
  else if (n =? 92)%N then Some JS.backslash
  else if (n =? 47)%N then Some "/"%char
  else if (n =? 98)%N then Some "008"%char
  else if (n =? 102)%N then Some "012"%char
  else if (n =? 110)%N then Some "010"%char
  else if (n =? 114)%N then Some "013"%char
  else if (n =? 116)%N then Some "009"%char
  else None.

Definition snoc (s : string) (c : ascii) : string := s +:+ JS.chr c.

Fixpoint run (st : pstate) (done : list string) (s : string) : option (list string) :=
  match s with
  | EmptyString => match st with PEnd => Some done | _ => None end
  | String c r =>
      match st with
      | PStart =>
          if is_ws c then run PStart done r
          else if Ascii.eqb c "["%char then run PFirst done r
          else None
      | PFirst =>
          if is_ws c then run PFirst done r
          else if Ascii.eqb c "]"%char then run PEnd done r
          else if Ascii.eqb c JS.dquote then run (PStr EmptyString) done r
          else None
      | PValue =>
          if is_ws c then run PValue done r
          else if Ascii.eqb c JS.dquote then run (PStr EmptyString) done r
          else None
      | PStr cur =>
          if Ascii.eqb c JS.dquote then run PNext (done ++ [cur]) r
          else if Ascii.eqb c JS.backslash then run (PEsc cur) done r
          else if (N_of_ascii c <? 32)%N then None
          else run (PStr (snoc cur c)) done r
      | PEsc cur =>
          match unescape c with
          | Some d => run (PStr (snoc cur d)) done r
          | None =>
              if Ascii.eqb c "u"%char then run (PHex cur 0 0%N) done r else None
          end
      | PHex cur k v =>
          match hex_value c with
          | None => None
          | Some d =>
              let v' := (16 * v + d)%N in
              if (k =? 3)%nat then
                if (v' <? 256)%N then run (PStr (snoc cur (ascii_of_N v'))) done r
                else None
              else run (PHex cur (S k) v') done r
          end
      | PNext =>
          if is_ws c then run PNext done r
          else if Ascii.eqb c ","%char then run PValue done r
          else if Ascii.eqb c "]"%char then run PEnd done r
          else None
      | PEnd => if is_ws c then run PEnd done r else None
      end
  end.

Definition parse_strings (s : string) : option (list string) := run PStart [] s.

(** The text that follows the first element of a serialized array. *)
Definition array_tail (l : list string) : string :=
  match l with
  | [] => "]"
  | _ :: _ => "," +:+ JS.join "," (List.map quote l) +:+ "]"
  end.

End Json.

(** [JSON.parse] on the text of column [quickReplies]. *)
Definition JSON_parse (s : string) : outcome (list string) :=
  match Json.parse_strings s with
  | Some l => Ret l
  | None => Throw (Exn "SyntaxError" "Unexpected token in JSON")
  end.


(** ** Persistent state *)

(** A row of table [bots]; [quickReplies] is the serialized text. *)
Module Row.
Record t := mk {
  id : string;
  name : string;
  avatar : string;
  themeColor : string;
  welcome : string;
  quickReplies : string;
  createdAt : Z
}.
End Row.

(** What [getBot] returns: the row with [quickReplies] parsed. *)
Module Bot.
Record t := mk {
  id : string;
  name : string;
  avatar : string;
  themeColor : string;
  welcome : string;
  quickReplies : list string;
  createdAt : Z
}.
End Bot.

(** A row of table [documents]. *)
Module Doc.
Record t := mk {
  id : string;
  botId : string;
  filename : string;
  text : string;
  addedAt : Z
}.
End Doc.

(** The database and the upload directory (path to bytes). *)
Record world := World {
  bots : gmap string Row.t;
  documents : list Doc.t;
  uploads : gmap string string
}.

(** What a request reads from outside the process. *)
Record env := Env {
  HF_API_KEY : string;                       (* process.env.HF_API_KEY || '' *)
  uuidv4 : string;                           (* the identifier uuidv4() draws *)
  Date_now : Z;                              (* Date.now() *)
  axios_post : string -> outcome json;       (* prompt to hfRes.data, or a rejection *)
  pdf : string -> outcome (option string)    (* file content to data.text *)
}.

(** ** The handler monad: state and exceptions *)

Definition M (A : Type) : Type := world -> world * outcome A.

Definition ret {A} (a : A) : M A := fun w => (w, Ret a).
Definition throw {A} (e : exn) : M A := fun w => (w, Throw e).
Definition lift {A} (o : outcome A) : M A := fun w => (w, o).
Definition get : M world := fun w => (w, Ret w).
Definition put (w' : world) : M unit := fun _ => (w', Ret tt).

Definition bind {A B} (m : M A) (k : A -> M B) : M B :=
  fun w => match m w with
           | (w', Ret a) => k a w'
           | (w', Throw e) => (w', Throw e)
           end.

(** [try { m } catch (err) { h err }] *)
Definition try_catch {A} (m : M A) (h : exn -> M A) : M A :=
  fun w => match m w with
           | (w', Ret a) => (w', Ret a)
           | (w', Throw e) => h e w'
           end.

Notation "'let*' x := m 'in' k" := (bind m (fun x => k))
  (at level 10, x binder, m at level 100, k at level 200).

(** ** HTTP responses *)

Module Settings.
Record t := mk {
  id : string;
  name : string;
  avatar : string;
  themeColor : string;
  welcome : string;
  quickReplies : list string
}.
End Settings.

Module Chat.
Record t := mk { reply : json; quickReplies : list string }.
End Chat.

Inductive body :=
| BError (error : string)          (* { error } *)
| BBotId (botId : string)          (* { botId } *)
| BOk                              (* { status: 'ok' } *)
| BUploaded (filename : string)    (* { status: 'ok', filename } *)
| BSettings (s : Settings.t)
| BChat (r : Chat.t)
| BUnhandled (e : exn).            (* the framework's page for an uncaught error *)

Record response := Response { status : nat; payload : body }.

(** A route: the handler's effect on the world and the response sent.  An
    exception no handler catches reaches the framework, which answers 500. *)
Definition express (m : M response) (w : world) : world * response :=
  match m w with
  | (w', Ret r) => (w', r)
  | (w', Throw e) => (w', Response 500 (BUnhandled e))
  end.

(** ** Helper functions of [server.js] *)

Module NewBot.
Record t := mk {
  id : string;
  name : string;
  avatar : option string;
  themeColor : option string;
  welcome : option string;
  quickReplies : option (list string)
}.
End NewBot.

Definition createBotRecord (e : env) (a : NewBot.t) : M unit :=
  let avatar := default EmptyString (NewBot.avatar a) in
  let themeColor := default "#4CAF50" (NewBot.themeColor a) in
  let welcome := default "Hi! How can I help?" (NewBot.welcome a) in
  let quickReplies := default [] (NewBot.quickReplies a) in
  let* w := get in
  match bots w !! NewBot.id a with
  | Some _ => throw (Exn "SqliteError" "UNIQUE constraint failed: bots.id")
  | None =>
      put (World
             (<[NewBot.id a :=
                  Row.mk (NewBot.id a) (NewBot.name a) avatar themeColor welcome
                         (Json.stringify_strings quickReplies) (Date_now e)]> (bots w))
             (documents w) (uploads w))
  end.

Definition getBot (id : string) : M (option Bot.t) :=
  let* w := get in
  match bots w !! id with
  | None => ret None
  | Some row =>
      let* quickReplies := (if JS.truthy (Row.quickReplies row)
                            then lift (JSON_parse (Row.quickReplies row))
                            else ret []) in
      ret (Some (Bot.mk (Row.id row) (Row.name row) (Row.avatar row)
                        (Row.themeColor row) (Row.welcome row) quickReplies
                        (Row.createdAt row)))
  end.

Definition saveDocument (e : env) (botId filename text : string) : M string :=
  let id := uuidv4 e in
  let* w := get in
  if existsb (fun d => String.eqb (Doc.id d) id) (documents w)
  then throw (Exn "SqliteError" "UNIQUE constraint failed: documents.id")
  else
    let* _ := put (World (bots w)
                         (documents w ++ [Doc.mk id botId filename text (Date_now e)])
                         (uploads w)) in
    ret id.

Definition getBotDocuments (botId : string) : M (list Doc.t) :=
  let* w := get in
  ret (List.filter (fun d => String.eqb (Doc.botId d) botId) (documents w)).

(** ** Reading a file as text

    [Buffer.toString('utf8')], which [fs.readFileSync(path, 'utf8')] applies
    to the bytes of the file.  [Utf8.decode] is that decoding for the byte
    sequences whose text lies within the code units 0..255: ASCII bytes, and
    the two-byte sequences of U+0080..U+00FF.  Any other sequence (malformed,
    or of a code point above U+00FF) has no text among the modelled strings,
    and [decode] gives [None]. *)

Module Utf8.

Definition is_ascii (b : ascii) : bool := (N_of_ascii b <? 128)%N.

Definition is_continuation (b : ascii) : bool :=
  ((128 <=? N_of_ascii b) && (N_of_ascii b <? 192))%N.

(** The lead bytes of U+0080..U+00BF and U+00C0..U+00FF. *)
Definition is_lead2 (b : ascii) : bool :=
  ((N_of_ascii b =? 194) || (N_of_ascii b =? 195))%N.

(** The code unit of a two-byte sequence. *)
Definition code_unit (lead cont : ascii) : ascii :=
  ascii_of_N ((N_of_ascii lead - 192) * 64 + (N_of_ascii cont - 128)).

Fixpoint decode (bytes : string) : option string :=
  match bytes with
  | EmptyString => Some EmptyString
  | String b rest =>
      if is_ascii b then option_map (String b) (decode rest)
      else if is_lead2 b then
        match rest with
        | String c rest' =>
            if is_continuation c
            then option_map (String (code_unit b c)) (decode rest')
            else None
        | EmptyString => None
        end
      else None
  end.

Fixpoint ascii_only (bytes : string) : bool :=
  match bytes with
  | EmptyString => true
  | String b rest => is_ascii b && ascii_only rest
  end.

(** The text the model gives a file: its decoding; bytes that have no text
    among the modelled strings are left as they are, and no statement is
    made about them. *)
Definition toString (bytes : string) : string := default bytes (decode bytes).

End Utf8.

(** ** The file system calls of the upload route *)

Definition enoent (path : string) : exn :=
  Exn "Error" ("ENOENT: no such file or directory, open '" +:+ path +:+ "'").

(** [fs.readFileSync(path)]: the bytes of the file. *)
Definition readFileSync (path : string) : M string :=
  let* w := get in
  match uploads w !! path with
  | Some content => ret content
  | None => throw (enoent path)
  end.

(** [fs.readFileSync(path, 'utf8')] *)
Definition readFileSync_utf8 (path : string) : M string :=
  let* raw := readFileSync path in
  ret (Utf8.toString raw).

Definition unlinkSync (path : string) : M unit :=
  let* w := get in
  match uploads w !! path with
  | Some _ => put (World (bots w) (documents w) (delete path (uploads w)))
  | None => throw (enoent path)
  end.

(** ** Routes *)

Module BotBody.
Record t := mk {
  name : option string;
  avatar : option string;
  themeColor : option string;
  welcome : option string;
  quickReplies : option (list string)
}.
End BotBody.

(** [POST /api/bot] *)
Definition post_bot_handler (e : env) (b : BotBody.t) : M response :=
  if JS.falsy (BotBody.name b) then ret (Response 400 (BError "name required"))
  else
    let id := uuidv4 e in
    let* _ := createBotRecord e
                (NewBot.mk id (default EmptyString (BotBody.name b))
                   (Some (JS.opt_or (BotBody.avatar b) EmptyString))
                   (Some (JS.opt_or (BotBody.themeColor b) "#4CAF50"))
                   (Some (JS.opt_or (BotBody.welcome b) "Hi! How can I help?"))
                   (Some (JS.arr_or (BotBody.quickReplies b) []))) in
    ret (Response 200 (BBotId id)).

Definition post_bot (e : env) (b : BotBody.t) : world -> world * response :=
  express (post_bot_handler e b).

Module File.
Record t := mk { path : string; mimetype : string; originalname : string }.
End File.

(** [POST /api/bot/:botId/upload]; [file] is [req.file], already written to
    the upload directory by the multipart middleware. *)
Definition post_upload_handler (e : env) (botId : string) (file : option File.t)
  : M response :=
  try_catch
    (let* bot := getBot botId in
     match bot with
     | None => ret (Response 404 (BError "bot not found"))
     | Some _ =>
         match file with
         | None => ret (Response 400 (BError "file required"))
         | Some f =>
             let filepath := File.path f in
             let* text :=
               (if String.eqb (File.mimetype f) "application/pdf"
                   || JS.endsWith (File.originalname f) ".pdf"
                then
                  let* raw := readFileSync filepath in
                  let* data := lift (pdf e raw) in
                  ret (JS.opt_or data EmptyString)
                else readFileSync_utf8 filepath) in
             let* _ := saveDocument e botId (File.originalname f) text in
             let* _ := unlinkSync filepath in
             ret (Response 200 (BUploaded (File.originalname f)))
         end
     end)
    (fun err =>
       ret (Response 500 (BError (JS.or_else (emessage err) (exn_to_string err))))).

Definition post_upload (e : env) (botId : string) (file : option File.t)
  : world -> world * response :=
  express (post_upload_handler e botId file).

(** [GET /api/bot/:botId/settings] *)
Definition get_settings_handler (botId : string) : M response :=
  let* bot := getBot botId in
  match bot with
  | None => ret (Response 404 (BError "bot not found"))
  | Some bot =>
      ret (Response 200
             (BSettings (Settings.mk (Bot.id bot) (Bot.name bot) (Bot.avatar bot)
                           (Bot.themeColor bot) (Bot.welcome bot)
                           (Bot.quickReplies bot))))
  end.

Definition get_settings (botId : string) : world -> world * response :=
  express (get_settings_handler botId).

Module Patch.
Record t := mk {
  avatar : option string;
  themeColor : option string;
  welcome : option string;
  quickReplies : option (list string)
}.
End Patch.

(** [UPDATE bots SET avatar=?, themeColor=?, welcome=?, quickReplies=? WHERE id=?] *)
Definition update_row (avatar themeColor welcome quickReplies : string) (r : Row.t)
  : Row.t :=
  Row.mk (Row.id r) (Row.name r) avatar themeColor welcome quickReplies
         (Row.createdAt r).

(** [POST /api/bot/:botId/settings] *)
Definition post_settings_handler (botId : string) (p : Patch.t) : M response :=
  let* bot := getBot botId in
  match bot with
  | None => ret (Response 404 (BError "bot not found"))
  | Some bot =>
      let* w := get in
      let* _ := put (World
                       (alter (update_row
                                 (JS.opt_or (Patch.avatar p) (Bot.avatar bot))
                                 (JS.opt_or (Patch.themeColor p) (Bot.themeColor bot))
                                 (JS.opt_or (Patch.welcome p) (Bot.welcome bot))
                                 (Json.stringify_strings
                                    (JS.arr_or (Patch.quickReplies p)
                                               (Bot.quickReplies bot))))
                              botId (bots w))
                       (documents w) (uploads w)) in
      ret (Response 200 BOk)
  end.

Definition post_settings (botId : string) (p : Patch.t) : world -> world * response :=
  express (post_settings_handler botId p).

(** ** The chat handler *)

(** The loop over [docs] of [handleChat]: the value of [foundText] when the
    loop ends. *)
Fixpoint foundText (docs : list Doc.t) (message : string) : string :=
  match docs with
  | [] => EmptyString
  | d :: rest =>
      if JS.truthy (Doc.text d)
         && JS.includes (JS.toLowerCase (Doc.text d))
                        (JS.first (JS.split JS.space (JS.toLowerCase message)))
      then JS.slice0 800 (Doc.text d)
      else foundText rest message
  end.

(** The template literal sent as [inputs]. *)
Definition prompt (context message : string) : string :=
  "You are an assistant that answers based on context:" +:+ JS.chr JS.newline
  +:+ context +:+ JS.chr JS.newline +:+ JS.chr JS.newline
  +:+ "Question: " +:+ message +:+ JS.chr JS.newline +:+ "Answer:".

(** [v.generated_text] for a value that is not [null]: only objects carry
    such a property. *)
Definition generated_text (v : json) : option json :=
  match v with
  | JObj props =>
      snd <$> List.find (fun kv => String.eqb (fst kv) "generated_text") props
  | _ => None
  end.

(** [data[0]?.generated_text] *)
Definition first_generated_text (data : json) : option json :=
  match data with
  | JArr (x :: _) => generated_text x
  | _ => None
  end.

Definition is_array (v : json) : bool :=
  match v with JArr _ => true | _ => false end.

Definition opt_truthy (o : option json) : bool :=
  match o with Some v => Json.truthy v | None => false end.

(** The three-way choice of [text] from [hfRes.data]. *)
Definition response_text (data : json) : outcome json :=
  if is_array data && opt_truthy (first_generated_text data)
  then Ret (default JNull (first_generated_text data))
  else
    match data with
    | JNull =>
        Throw (Exn "TypeError"
                 "Cannot read properties of null (reading 'generated_text')")
    | _ =>
        if opt_truthy (generated_text data)
        then Ret (default JNull (generated_text data))
        else Ret (JStr (Json.stringify data))
    end.

(** The body of the [try] block: the call and the choice of [text]. *)
Definition generate (e : env) (context message : string) : outcome json :=
  match axios_post e (prompt context message) with
  | Throw err => Throw err
  | Ret data => response_text data
  end.

Definition found_but_no_answer : string :=
  "I found something but can't make a full answer.".
Definition dont_know : string :=
  "Sorry, I don't know the answer to that yet. Try one of the options.".

(** The statements after the inference block. *)
Definition local_reply (bot : Bot.t) (context message : string) : Chat.t :=
  let lower := JS.toLowerCase message in
  if JS.includes lower "hello" || JS.includes lower "hi"
  then Chat.mk (JStr (Bot.welcome bot)) (Bot.quickReplies bot)
  else if JS.truthy context
  then
    let ans := JS.join (JS.chr JS.newline)
                       (take 4 (JS.split JS.newline context)) in
    Chat.mk (JStr (JS.or_else ans found_but_no_answer)) (Bot.quickReplies bot)
  else Chat.mk (JStr dont_know) (Bot.quickReplies bot).

Definition handleChat (e : env) (botId message : string) : M Chat.t :=
  let* bot := getBot botId in
  match bot with
  | None => throw (Exn "Error" "bot not found")
  | Some bot =>
      let* docs := getBotDocuments botId in
      let context := foundText docs message in
      let* answered :=
        (if JS.truthy (HF_API_KEY e)
         then try_catch
                (let* text := lift (generate e context message) in ret (Some text))
                (fun _ => ret None)
         else ret None) in
      match answered with
      | Some text => ret (Chat.mk text (Bot.quickReplies bot))
      | None => ret (local_reply bot context message)
      end
  end.

Module MessageBody.
Record t := mk { botId : option string; message : option string }.
End MessageBody.

(** [POST /api/message] *)
Definition post_message_handler (e : env) (b : MessageBody.t) : M response :=
  try_catch
    (if JS.falsy (MessageBody.botId b) || JS.falsy (MessageBody.message b)
     then ret (Response 400 (BError "botId and message required"))
     else
       let* result := handleChat e (default EmptyString (MessageBody.botId b))
                                   (default EmptyString (MessageBody.message b)) in
       ret (Response 200 (BChat result)))
    (fun err => ret (Response 500 (BError (emessage err)))).

Definition post_message (e : env) (b : MessageBody.t) : world -> world * response :=
  express (post_message_handler e b).


(** ** Vocabulary of the statements *)

(** [t] occurs in [s] as a substring. *)
Definition contains (s t : string) : Prop := exists a b, s = a +:+ t +:+ b.

(** [c] does not occur in [s]. *)
Fixpoint free_of (c : ascii) (s : string) : Prop :=
  match s with
  | EmptyString => True
  | String x r => x <> c /\ free_of c r
  end.

(** [t] is what precedes the first [c] of [s] (all of [s] when it has none). *)
Definition first_field (c : ascii) (s t : string) : Prop :=
  free_of c t /\ (s = t \/ exists r, s = t +:+ String c r).

(** The document takes part in the scan and its lowercased text has the
    token as a substring. *)
Definition doc_matches (tok : string) (d : Doc.t) : Prop :=
  Doc.text d <> EmptyString /\ contains (JS.toLowerCase (Doc.text d)) tok.

(** [p] is the first [n] code units of [s] (all of it when [s] is shorter). *)
Definition prefix_upto (n : nat) (s p : string) : Prop :=
  (exists r, s = p +:+ r) /\ String.length p = Nat.min n (String.length s).

(** The value a route keeps for a string field: the supplied one when it is
    a non-empty string, the fallback when the field is absent or empty. *)
Definition chosen (supplied : option string) (fallback result : string) : Prop :=
  (forall s, supplied = Some s -> s <> EmptyString -> result = s)
  /\ (supplied = None \/ supplied = Some EmptyString -> result = fallback).

(** The same for an array field: every supplied array is kept. *)
Definition chosen_list (supplied : option (list string)) (fallback result : list string)
  : Prop :=
  (forall l, supplied = Some l -> result = l)
  /\ (supplied = None -> result = fallback).

(** The reading under which every supplied value, the empty string
    included, is kept. *)
Definition kept_as_supplied (supplied : option string) (fallback result : string)
  : Prop :=
  match supplied with
  | Some s => result = s
  | None => result = fallback
  end.

(** The upload is treated as a PDF. *)
Definition is_pdf (f : File.t) : bool :=
  String.eqb (File.mimetype f) "application/pdf" || JS.endsWith (File.originalname f) ".pdf".

(** The error text the upload route reports: [String(err.message || err)]. *)
Definition upload_error_text (err : exn) : string :=
  JS.or_else (emessage err) (exn_to_string err).

(** A body the handler finds no [generated_text] in. *)
Definition unexpected_shape (data : json) : Prop :=
  data <> JNull
  /\ opt_truthy (first_generated_text data) = false
  /\ opt_truthy (generated_text data) = false.

(** ** The context lookup as the specification words it

    Written from the specification's sentence, to be compared with
    [foundText]: the first whitespace-delimited token of the lowercased
    message, the first document whose lowercased text contains it, cut to
    800 characters; the empty string when nothing matches or the message has
    no token. *)
Module Spec.

Definition is_whitespace (c : ascii) : bool :=
  let n := N_of_ascii c in ((n =? 32) || (9 <=? n) && (n <=? 13))%N.

(** The characters up to the next whitespace. *)
Fixpoint word (s : string) : string :=
  match s with
  | EmptyString => EmptyString
  | String c r => if is_whitespace c then EmptyString else String c (word r)
  end.

Fixpoint first_token (s : string) : option string :=
  match s with
  | EmptyString => None
  | String c r => if is_whitespace c then first_token r else Some (String c (word r))
  end.

Fixpoint first_match (docs : list Doc.t) (tok : string) : string :=
  match docs with
  | [] => EmptyString
  | d :: rest =>
      if JS.includes (JS.toLowerCase (Doc.text d)) tok
      then JS.slice0 800 (Doc.text d)
      else first_match rest tok
  end.

Definition FindContext (docs : list Doc.t) (message : string) : string :=
  match first_token (JS.toLowerCase message) with
  | None => EmptyString
  | Some tok => first_match docs tok
  end.

End Spec.

(** ** A small deployment used by the examples *)

Definition timeout_error : exn := Exn "AxiosError" "timeout of 120000ms exceeded".
Definition pdf_error : exn := Exn "Error" "Invalid PDF structure".

(** No credential; the provider is down and no upload is a readable PDF. *)
Definition sample_env : env :=
  Env EmptyString "id-2" 1700 (fun _ => Throw timeout_error) (fun _ => Throw pdf_error).

(** The same with a credential configured. *)
Definition sample_env_keyed : env :=
  Env "hf_secret" "id-2" 1700 (fun _ => Throw timeout_error) (fun _ => Throw pdf_error).

Definition sample_row : Row.t :=
  Row.mk "bot-1" "Shop" "shop.png" "#112233" "Welcome!"
         (Json.stringify_strings ["Pricing"; "Contact"]) 1000.

Definition sample_bot : Bot.t :=
  Bot.mk "bot-1" "Shop" "shop.png" "#112233" "Welcome!" ["Pricing"; "Contact"] 1000.

Definition sample_docs : list Doc.t :=
  [Doc.mk "doc-1" "bot-1" "cat.txt" "The cat sat" 1100;
   Doc.mk "doc-2" "bot-1" "dogs.txt" "dogs bark loudly" 1200].

Definition sample_file : File.t := File.mk "uploads/3f9c" "application/pdf" "menu.pdf".

Definition sample_world : world :=
  World {["bot-1" := sample_row]} sample_docs {["uploads/3f9c" := "%PDF-1.4 broken"]}.

(** A second environment without credential: another provider answer,
    another clock, another identifier. *)
Definition other_env : env :=
  Env EmptyString "id-9" 99
      (fun _ => Ret (JArr [JObj [("generated_text", JStr "Forty-two.")]]))
      (fun _ => Ret (Some "text")).

(** A provider that answers 200 with a body of another shape. *)
Definition overloaded : json := JObj [("error", JStr "Model is overloaded")].

Definition odd_env : env :=
  Env "hf_secret" "id-2" 1700 (fun _ => Ret overloaded) (fun _ => Throw pdf_error).

(** A provider that answers in the expected shape. *)
Definition answering_env : env :=
  Env "hf_secret" "id-2" 1700
      (fun _ => Ret (JArr [JObj [("generated_text", JStr "Forty-two.")]]))
      (fun _ => Throw pdf_error).

(** Two creation requests. *)
Definition cafe_body : BotBody.t :=
  BotBody.mk (Some "Cafe") None (Some "#000000") None (Some ["Menu"]).

Definition plain_body : BotBody.t := BotBody.mk (Some "Cafe") None None None None.

(** * The remaining routes and the earlier listings *)

(** ** The legacy chat route

    [POST /api/bot/:botId/chat] hands [req.body.message] to [handleChat]
    unchecked, so [message] may be [undefined] there.  [handleChat_of] is
    [handleChat] read for such an argument. *)

Definition undefined_toLowerCase : exn :=
  Exn "TypeError" "Cannot read properties of undefined (reading 'toLowerCase')".

(** [message.toLowerCase()] *)
Definition toLowerCase_of (message : option string) : outcome string :=
  match message with
  | Some s => Ret (JS.toLowerCase s)
  | None => Throw undefined_toLowerCase
  end.

(** [message] inside a template literal. *)
Definition render (message : option string) : string := default "undefined" message.

(** The loop over [docs]; the token is only computed for a document that has
    a text. *)
Fixpoint foundText_of (docs : list Doc.t) (message : option string) : outcome string :=
  match docs with
  | [] => Ret EmptyString
  | d :: rest =>
      if JS.truthy (Doc.text d) then
        match toLowerCase_of message with
        | Throw err => Throw err
        | Ret lower =>
            if JS.includes (JS.toLowerCase (Doc.text d)) (JS.first (JS.split JS.space lower))
            then Ret (JS.slice0 800 (Doc.text d))
            else foundText_of rest message
        end
      else foundText_of rest message
  end.

Definition handleChat_of (e : env) (botId : string) (message : option string) : M Chat.t :=
  let* bot := getBot botId in
  match bot with
  | None => throw (Exn "Error" "bot not found")
  | Some bot =>
      let* docs := getBotDocuments botId in
      let* context := lift (foundText_of docs message) in
      let* answered :=
        (if JS.truthy (HF_API_KEY e)
         then try_catch
                (let* text := lift (generate e context (render message)) in ret (Some text))
                (fun _ => ret None)
         else ret None) in
      match answered with
      | Some text => ret (Chat.mk text (Bot.quickReplies bot))
      | None =>
          match message with
          | Some m => ret (local_reply bot context m)
          | None => throw undefined_toLowerCase
          end
      end
  end.

(** [POST /api/bot/:botId/chat] *)
Definition post_chat_handler (e : env) (botId : string) (message : option string)
  : M response :=
  try_catch
    (let* result := handleChat_of e botId message in
     ret (Response 200 (BChat result)))
    (fun err => ret (Response 500 (BError (emessage err)))).

Definition post_chat (e : env) (botId : string) (message : option string)
  : world -> world * response :=
  express (post_chat_handler e botId message).

(** ** The application: one request, one route

    The API routes registered on [app].  The routes that only send files
    ([express.static], [/widget-loader.js]) read neither table and are left
    out. *)

Inductive request :=
| GetHealth
| PostBot (b : BotBody.t)
| PostUpload (botId : string) (file : option File.t)
| GetSettings (botId : string)
| PostChat (botId : string) (message : option string)
| PostMessage (b : MessageBody.t)
| PostSettings (botId : string) (p : Patch.t).

Module Server.

Definition app (e : env) (r : request) (w : world) : world * response :=
  match r with
  | GetHealth => (w, Response 200 BOk)
  | PostBot b => post_bot e b w
  | PostUpload botId file => post_upload e botId file w
  | GetSettings botId => get_settings botId w
  | PostChat botId message => post_chat e botId message w
  | PostMessage b => post_message e b w
  | PostSettings botId p => post_settings botId p w
  end.

End Server.

(** ** What the store keeps true *)

(** Every row sits under its own [id] and holds a serialized array of
    strings. *)
Definition rows_ok (w : world) : Prop :=
  forall id row, bots w !! id = Some row ->
    Row.id row = id /\ exists l, Row.quickReplies row = Json.stringify_strings l.

(** Document identifiers are pairwise distinct. *)
Definition doc_ids_ok (w : world) : Prop := NoDup (List.map Doc.id (documents w)).

(** Every document belongs to a bot of the store. *)
Definition owners_ok (w : world) : Prop :=
  forall d, In d (documents w) -> is_Some (bots w !! Doc.botId d).

Definition store_ok (w : world) : Prop := rows_ok w /\ doc_ids_ok w /\ owners_ok w.

(** The store [w'] extends [w]: the documents of [w] head the documents of
    [w'], and every bot of [w] is in [w'] under the same [id], [name] and
    [createdAt]. *)
Definition extends (w w' : world) : Prop :=
  (exists added, documents w' = (documents w ++ added)%list)
  /\ forall id row, bots w !! id = Some row ->
       exists row', bots w' !! id = Some row'
                    /\ Row.id row' = Row.id row
                    /\ Row.name row' = Row.name row
                    /\ Row.createdAt row' = Row.createdAt row.

(** What one request can do to the world. *)
Inductive effect (w : world) : world -> Prop :=
| eff_none : effect w w
| eff_new_bot (row : Row.t) (l : list string) :
    bots w !! Row.id row = None ->
    Row.quickReplies row = Json.stringify_strings l ->
    effect w (World (<[Row.id row := row]> (bots w)) (documents w) (uploads w))
| eff_new_doc (d : Doc.t) (path : string) :
    existsb (fun x => String.eqb (Doc.id x) (Doc.id d)) (documents w) = false ->
    is_Some (bots w !! Doc.botId d) ->
    effect w (World (bots w) (documents w ++ [d]) (delete path (uploads w)))
| eff_settings (botId : string) (row : Row.t) (avatar themeColor welcome : string)
               (l : list string) :
    bots w !! botId = Some row ->
    effect w (World (alter (update_row avatar themeColor welcome
                                       (Json.stringify_strings l)) botId (bots w))
                    (documents w) (uploads w)).

(** The worlds the application can be in: it starts with empty tables, the
    multipart middleware drops files into the upload directory, and every
    request is served by [Server.app]. *)
Inductive reachable : world -> Prop :=
| reach_start (files : gmap string string) : reachable (World ∅ [] files)
| reach_file (w : world) (path content : string) :
    reachable w ->
    reachable (World (bots w) (documents w) (<[path := content]> (uploads w)))
| reach_request (e : env) (r : request) (w : world) :
    reachable w -> reachable (fst (Server.app e r w)).

(** Number of occurrences of [c] in [s]. *)
Fixpoint count_char (c : ascii) (s : string) : nat :=
  match s with
  | EmptyString => 0
  | String x r => (if Ascii.eqb x c then 1 else 0) + count_char c r
  end.

(** The first document that has a text. *)
Fixpoint first_text (docs : list Doc.t) : string :=
  match docs with
  | [] => EmptyString
  | d :: rest => if JS.truthy (Doc.text d) then JS.slice0 800 (Doc.text d) else first_text rest
  end.

(** ** The first listing of [server.js] (inference only) *)

(** [data[0]] *)
Definition index0 (data : json) : outcome (option json) :=
  match data with
  | JNull => Throw (Exn "TypeError" "Cannot read properties of null (reading '0')")
  | JArr items => Ret (head items)
  | JStr s =>
      Ret (match s with
           | EmptyString => None
           | String c _ => Some (JStr (JS.chr c))
           end)
  | JObj props => Ret (snd <$> List.find (fun kv => String.eqb (fst kv) "0") props)
  | JBool _ | JNum _ => Ret None
  end.

(** [x?.generated_text] *)
Definition opt_generated_text (x : option json) : option json :=
  match x with Some v => generated_text v | None => None end.

(** The message route, for a given chat handler. *)
Definition message_route (chat : string -> string -> M Chat.t) (b : MessageBody.t)
  : M response :=
  try_catch
    (if JS.falsy (MessageBody.botId b) || JS.falsy (MessageBody.message b)
     then ret (Response 400 (BError "botId and message required"))
     else
       let* result := chat (default EmptyString (MessageBody.botId b))
                           (default EmptyString (MessageBody.message b)) in
       ret (Response 200 (BChat result)))
    (fun err => ret (Response 500 (BError (emessage err)))).

Module V1.

Definition unavailable : string := "AI is unavailable right now (missing API key).".
Definition no_reply : string := "I couldn't generate a reply.".
Definition connection_issue : string := "Sorry, I had an issue connecting to AI.".

(** [POST /api/bot]: the body's fields go to [createBotRecord] as they are. *)
Definition post_bot_handler (e : env) (b : BotBody.t) : M response :=
  if JS.falsy (BotBody.name b) then ret (Response 400 (BError "name required"))
  else
    let id := uuidv4 e in
    let* _ := createBotRecord e
                (NewBot.mk id (default EmptyString (BotBody.name b))
                   (BotBody.avatar b) (BotBody.themeColor b)
                   (BotBody.welcome b) (BotBody.quickReplies b)) in
    ret (Response 200 (BBotId id)).

Definition post_bot (e : env) (b : BotBody.t) : world -> world * response :=
  express (post_bot_handler e b).

Definition prompt (context message : string) : string :=
  if JS.truthy context
  then "Context: " +:+ context +:+ JS.chr JS.newline +:+ JS.chr JS.newline
       +:+ "User: " +:+ message +:+ JS.chr JS.newline +:+ "Bot:"
  else message.

(** [hfRes.data[0]?.generated_text || "I couldn't generate a reply."] *)
Definition reply_of (data : json) : outcome json :=
  match index0 data with
  | Throw err => Throw err
  | Ret x =>
      Ret (if opt_truthy (opt_generated_text x)
           then default JNull (opt_generated_text x)
           else JStr no_reply)
  end.

Definition handleChat (e : env) (botId message : string) : M Chat.t :=
  let* bot := getBot botId in
  match bot with
  | None => throw (Exn "Error" "bot not found")
  | Some bot =>
      let* docs := getBotDocuments botId in
      let context := foundText docs message in
      if negb (JS.truthy (HF_API_KEY e))
      then ret (Chat.mk (JStr unavailable) (Bot.quickReplies bot))
      else
        try_catch
          (let* data := lift (axios_post e (prompt context message)) in
           let* reply := lift (reply_of data) in
           ret (Chat.mk reply (Bot.quickReplies bot)))
          (fun _ => ret (Chat.mk (JStr connection_issue) (Bot.quickReplies bot)))
  end.

Definition post_message (e : env) (b : MessageBody.t) : world -> world * response :=
  express (message_route (handleChat e) b).

End V1.

(** ** The second listing, [api/index.js] (local branches first) *)

Module V2.

Definition dont_know : string := "Sorry, I don't know the answer to that yet.".

(** The [generated_text] the guard
    [hfRes.data && hfRes.data[0] && hfRes.data[0].generated_text] lets through. *)
Definition answer_of (data : json) : option json :=
  if Json.truthy data then
    match index0 data with
    | Ret (Some x) =>
        if Json.truthy x && opt_truthy (generated_text x) then generated_text x else None
    | _ => None
    end
  else None.

Definition handleChat (e : env) (botId message : string) : M Chat.t :=
  let* bot := getBot botId in
  match bot with
  | None => throw (Exn "Error" "bot not found")
  | Some bot =>
      let* docs := getBotDocuments botId in
      let context := foundText docs message in
      let lower := JS.toLowerCase message in
      if JS.includes lower "hello" || JS.includes lower "hi"
      then ret (Chat.mk (JStr (Bot.welcome bot)) (Bot.quickReplies bot))
      else if JS.truthy context
      then
        let ans := JS.join (JS.chr JS.newline) (take 4 (JS.split JS.newline context)) in
        ret (Chat.mk (JStr (JS.or_else ans found_but_no_answer)) (Bot.quickReplies bot))
      else
        let* answered :=
          try_catch
            (let* data := lift (axios_post e message) in ret (answer_of data))
            (fun _ => ret None) in
        match answered with
        | Some text => ret (Chat.mk text (Bot.quickReplies bot))
        | None => ret (Chat.mk (JStr dont_know) (Bot.quickReplies bot))
        end
  end.

Definition post_message (e : env) (b : MessageBody.t) : world -> world * response :=
  express (message_route (handleChat e) b).

End V2.

(** ** More of the small deployment *)

(** A store with a bot that has no document yet. *)
Definition fresh_world : world :=
  World {["bot-1" := sample_row]} [] {["uploads/77aa" := "Opening hours: nine to five"]}.

Definition hours_file : File.t := File.mk "uploads/77aa" "text/plain" "hours.txt".

Definition hours_doc : Doc.t :=
  Doc.mk "id-2" "bot-1" "hours.txt" "Opening hours: nine to five" 1700.

(** A text file with a letter outside ASCII: the bytes of "caf" and of
    U+00E9. *)
Definition cafe_bytes : string := "caf" +:+ String "195"%char (String "169"%char EmptyString).
Definition cafe_text : string := "caf" +:+ String "233"%char EmptyString.

Definition cafe_world : world :=
  World {["bot-1" := sample_row]} [] {["uploads/c4f3" := cafe_bytes]}.

Definition cafe_file : File.t := File.mk "uploads/c4f3" "text/plain" "cafe.txt".

(** A creation request with an empty [themeColor]. *)
Definition blank_body : BotBody.t :=
  BotBody.mk (Some "Cafe") None (Some EmptyString) (Some "Hello there") None.

(** The extraction finds no text in the upload. *)
Definition blank_pdf_env : env :=
  Env EmptyString "id-2" 1700 (fun _ => Throw timeout_error) (fun _ => Ret None).

(** * Properties *)

(** ** Strings *)

Lemma str_app_assoc (a b c : string) : (a +:+ b) +:+ c = a +:+ (b +:+ c).
Proof. induction a as [|x a IH]; [reflexivity | exact (f_equal (String x) IH)]. Qed.

Lemma str_app_nil_r (a : string) : a +:+ EmptyString = a.
Proof. induction a as [|x a IH]; [reflexivity | exact (f_equal (String x) IH)]. Qed.

(** ** The JSON codec: what is written is read back *)

Lemma snoc_app (cur : string) (c : ascii) (r : string) :
  Json.snoc cur c +:+ r = cur +:+ String c r.
Proof. unfold Json.snoc, JS.chr. now rewrite str_app_assoc. Qed.

(** Reading the escape of one code unit appends that code unit. *)
Lemma run_escape_char (c : ascii) (cur : string) (done : list string) (rest : string) :
  Json.run (Json.PStr cur) done (Json.escape_char c +:+ rest)
  = Json.run (Json.PStr (Json.snoc cur c)) done rest.
Proof.
  destruct c as [[] [] [] [] [] [] [] []]; reflexivity.
Qed.

Lemma run_escape (s : string) :
  forall (cur : string) (done : list string) (rest : string),
    Json.run (Json.PStr cur) done (Json.escape s +:+ rest)
    = Json.run (Json.PStr (cur +:+ s)) done rest.
Proof.
  induction s as [|c s IH]; intros cur done rest; cbn [Json.escape].
  - now rewrite str_app_nil_r.
  - rewrite str_app_assoc, run_escape_char, IH. now rewrite snoc_app.
Qed.

(** Reading one quoted string from the state before a value. *)
Lemma run_quote (x : string) (done : list string) (rest : string) :
  Json.run (Json.PStr EmptyString) done (Json.escape x +:+ String JS.dquote rest)
  = Json.run Json.PNext (done ++ [x]) rest.
Proof. rewrite run_escape. reflexivity. Qed.

Lemma chr_app (c : ascii) (r : string) : JS.chr c +:+ r = String c r.
Proof. reflexivity. Qed.

Lemma quote_app (y r : string) :
  Json.quote y +:+ r = String JS.dquote (Json.escape y +:+ JS.chr JS.dquote +:+ r).
Proof.
  unfold Json.quote.
  change (String JS.dquote ((Json.escape y +:+ JS.chr JS.dquote) +:+ r)
          = String JS.dquote (Json.escape y +:+ JS.chr JS.dquote +:+ r)).
  now rewrite str_app_assoc.
Qed.

Lemma join_cons2 (sep a b : string) (l : list string) :
  JS.join sep (a :: b :: l) = a +:+ sep +:+ JS.join sep (b :: l).
Proof. reflexivity. Qed.

Lemma join_quote_tail (x : string) (l : list string) :
  JS.join "," (List.map Json.quote (x :: l)) +:+ "]"
  = String JS.dquote (Json.escape x +:+ JS.chr JS.dquote +:+ Json.array_tail l).
Proof.
  destruct l as [|y l].
  - cbn [List.map JS.join Json.array_tail]. apply quote_app.
  - change (List.map Json.quote (x :: y :: l))
      with (Json.quote x :: Json.quote y :: List.map Json.quote l).
    rewrite join_cons2, !str_app_assoc, quote_app. reflexivity.
Qed.

Lemma run_elements (l : list string) :
  forall (x : string) (done : list string),
    Json.run (Json.PStr EmptyString) done
      (Json.escape x +:+ JS.chr JS.dquote +:+ Json.array_tail l)
    = Some (done ++ x :: l)%list.
Proof.
  induction l as [|y l IH]; intros x done; rewrite chr_app, run_quote.
  - reflexivity.
  - replace (done ++ x :: y :: l)%list with ((done ++ [x]) ++ y :: l)%list
      by now rewrite <- app_assoc.
    rewrite <- (IH y (done ++ [x])%list).
    unfold Json.array_tail at 1. rewrite join_quote_tail. reflexivity.
Qed.

Lemma stringify_strings_eq (l : list string) :
  Json.stringify_strings l = "[" +:+ JS.join "," (List.map Json.quote l) +:+ "]".
Proof.
  unfold Json.stringify_strings. cbn [Json.stringify]. rewrite List.map_map. reflexivity.
Qed.

Theorem parse_stringify_strings (l : list string) :
  Json.parse_strings (Json.stringify_strings l) = Some l.
Proof.
  rewrite stringify_strings_eq. unfold Json.parse_strings.
  destruct l as [|x l]; [reflexivity|].
  rewrite join_quote_tail. exact (run_elements l x []).
Qed.

Lemma stringify_strings_truthy (l : list string) :
  JS.truthy (Json.stringify_strings l) = true.
Proof. rewrite stringify_strings_eq. reflexivity. Qed.

Lemma JSON_parse_stringify (l : list string) :
  JSON_parse (Json.stringify_strings l) = Ret l.
Proof. unfold JSON_parse. now rewrite parse_stringify_strings. Qed.

Example stringify_strings_escapes :
  Json.stringify_strings ["Pricing"; "a\b" +:+ JS.chr JS.newline]
  = "[" +:+ JS.chr JS.dquote +:+ "Pricing" +:+ JS.chr JS.dquote +:+ ","
        +:+ JS.chr JS.dquote +:+ "a\\b\n" +:+ JS.chr JS.dquote +:+ "]".
Proof. reflexivity. Qed.

Example parse_strings_spaced :
  Json.parse_strings ("[ " +:+ JS.chr JS.dquote +:+ "\u0041\/b" +:+ JS.chr JS.dquote +:+ " ]")
  = Some ["A/b"].
Proof. reflexivity. Qed.

Example parse_strings_rejects_number : Json.parse_strings "[1]" = None.
Proof. reflexivity. Qed.

(** ** Truthiness, substrings, fields and prefixes *)

Lemma truthy_true (s : string) : JS.truthy s = true <-> s <> EmptyString.
Proof. destruct s; simpl; split; congruence. Qed.

Lemma truthy_false (s : string) : JS.truthy s = false <-> s = EmptyString.
Proof. destruct s; simpl; split; congruence. Qed.

Lemma or_else_truthy (a b : string) : a <> EmptyString -> JS.or_else a b = a.
Proof. intros H. unfold JS.or_else. now apply truthy_true in H as ->. Qed.

(** *** [startsWith] and [includes] *)

Lemma startsWith_spec (s p : string) :
  JS.startsWith s p = true <-> exists b, s = p +:+ b.
Proof.
  revert s. induction p as [|a p IH]; intros s.
  - split; [intros _; now exists s | now destruct s].
  - destruct s as [|c s]; simpl.
    + split; [discriminate | intros [b Hb]; discriminate].
    + rewrite andb_true_iff, IH. split.
      * intros [Hac [b ->]]. apply Ascii.eqb_eq in Hac as ->. now exists b.
      * intros [b Hb]. injection Hb as -> ->. split; [apply Ascii.eqb_refl | now exists b].
Qed.

Lemma includes_spec (s t : string) : JS.includes s t = true <-> contains s t.
Proof.
  unfold contains. induction s as [|c s IH].
  - cbn [JS.includes]. rewrite orb_false_r, startsWith_spec. split.
    + intros [b Hb]. now exists EmptyString, b.
    + intros [a [b Hab]]. destruct a; [now exists b | discriminate].
  - cbn [JS.includes]. rewrite orb_true_iff, startsWith_spec, IH. split.
    + intros [[b Hb] | [a [b Hab]]].
      * now exists EmptyString, b.
      * exists (String c a), b. simpl. now rewrite Hab.
    + intros [a [b Hab]]. destruct a as [|x a].
      * left. now exists b.
      * right. injection Hab as -> ->. now exists a, b.
Qed.

Lemma includes_false (s t : string) : JS.includes s t = false <-> ~ contains s t.
Proof.
  rewrite <- includes_spec. destruct (JS.includes s t); split; congruence.
Qed.

(** *** [split] and the first field *)

Lemma split_first_field (c : ascii) (s : string) :
  first_field c s (JS.first (JS.split c s)).
Proof.
  induction s as [|x s [Hfree Hs]]; cbn [JS.split].
  - split; [exact I | now left].
  - destruct (Ascii.eqb_spec x c) as [->|Hne].
    + split; [exact I | right; now exists s].
    + destruct (JS.split c s) as [|h t] eqn:E; cbn [JS.first] in *.
      * split; [now split | destruct Hs as [->|[r ->]]; [now left | right; now exists r]].
      * split; [now split|].
        destruct Hs as [->|[r ->]]; [now left | right; now exists r].
Qed.

Lemma first_field_unique (c : ascii) (s t u : string) :
  first_field c s t -> first_field c s u -> t = u.
Proof.
  revert s u. induction t as [|x t IH]; intros s u [Ft Ht] [Fu Hu].
  - destruct u as [|y u]; [reflexivity|]. exfalso.
    destruct Fu as [Fy _].
    destruct Ht as [->|[r ->]]; destruct Hu as [Hu|[r' Hu]];
      try discriminate; injection Hu as Hy _; congruence.
  - destruct Ft as [Fx Ft]. destruct u as [|y u].
    + exfalso. destruct Ht as [->|[r ->]]; destruct Hu as [Hu|[r' Hu]];
        try discriminate; injection Hu as Hy _; congruence.
    + destruct Fu as [Fy Fu].
      assert (exists s', s = String x s' /\ first_field c s' t) as [s' [-> Hs']].
      { destruct Ht as [->|[r ->]]; eexists; (split; [reflexivity|]); split; auto.
        right. now exists r. }
      assert (x = y /\ first_field c s' u) as [-> Hu'].
      { destruct Hu as [Hu|[r Hu]]; injection Hu as -> ->; split; auto; split; auto.
        right. now exists r. }
      f_equal. eapply IH; eauto.
Qed.

(** *** [slice] *)

Lemma slice0_prefix (n : nat) (s : string) : prefix_upto n s (JS.slice0 n s).
Proof.
  revert s. induction n as [|n IH]; intros s.
  - split; [now exists s | reflexivity].
  - destruct s as [|c s]; [split; [now exists EmptyString | reflexivity]|].
    destruct (IH s) as [[r Hr] Hlen]. split.
    + exists r. exact (f_equal (String c) Hr).
    + cbn [JS.slice0 String.length]. rewrite Hlen. reflexivity.
Qed.

Lemma slice0_truthy (n : nat) (s : string) :
  JS.truthy (JS.slice0 (S n) s) = JS.truthy s.
Proof. now destruct s. Qed.

(** ** The handler monad *)

Ltac run_m :=
  unfold express, try_catch, bind, ret, throw, lift, get, put in *;
  cbn beta iota in *.

Lemma chosen_opt_or (supplied : option string) (fallback : string) :
  chosen supplied fallback (JS.opt_or supplied fallback).
Proof.
  split.
  - intros s -> Hs. cbn. now apply or_else_truthy.
  - intros [->| ->]; reflexivity.
Qed.

Lemma chosen_list_arr_or (supplied : option (list string)) (fallback : list string) :
  chosen_list supplied fallback (JS.arr_or supplied fallback).
Proof. split; [now intros l -> | now intros ->]. Qed.

(** ** [getBot] *)

Lemma getBot_world (id : string) (w : world) : fst (getBot id w) = w.
Proof.
  unfold getBot. run_m. destruct (bots w !! id) as [row|]; [|reflexivity].
  destruct (JS.truthy (Row.quickReplies row)); [|reflexivity].
  now destruct (JSON_parse (Row.quickReplies row)).
Qed.

Lemma getBot_missing (id : string) (w : world) :
  bots w !! id = None -> getBot id w = (w, Ret None).
Proof. intros H. unfold getBot. run_m. now rewrite H. Qed.

(** A row whose [quickReplies] text was written by [JSON.stringify]. *)
Lemma getBot_stored (id : string) (w : world) (row : Row.t) (l : list string) :
  bots w !! id = Some row ->
  Row.quickReplies row = Json.stringify_strings l ->
  getBot id w
  = (w, Ret (Some (Bot.mk (Row.id row) (Row.name row) (Row.avatar row)
                          (Row.themeColor row) (Row.welcome row) l
                          (Row.createdAt row)))).
Proof.
  intros H Hq. unfold getBot. run_m. rewrite H, Hq.
  now rewrite stringify_strings_truthy, JSON_parse_stringify.
Qed.

Lemma getBot_found (id : string) (w w' : world) (bot : Bot.t) :
  getBot id w = (w', Ret (Some bot)) ->
  w' = w /\ exists row,
    bots w !! id = Some row
    /\ Bot.id bot = Row.id row /\ Bot.name bot = Row.name row
    /\ Bot.avatar bot = Row.avatar row /\ Bot.themeColor bot = Row.themeColor row
    /\ Bot.welcome bot = Row.welcome row /\ Bot.createdAt bot = Row.createdAt row.
Proof.
  intros H. split; [now rewrite <- (getBot_world id w), H|].
  unfold getBot in H. run_m. destruct (bots w !! id) as [row|]; [|discriminate].
  exists row. split; [reflexivity|].
  destruct (JS.truthy (Row.quickReplies row)).
  - destruct (JSON_parse (Row.quickReplies row)); [|discriminate].
    injection H as _ <-. repeat split.
  - injection H as _ <-. repeat split.
Qed.

Lemma getBot_absent (id : string) (w w' : world) :
  getBot id w = (w', Ret None) -> w' = w /\ bots w !! id = None.
Proof.
  intros H. split; [now rewrite <- (getBot_world id w), H|].
  unfold getBot in H. run_m. destruct (bots w !! id) as [row|]; [|reflexivity].
  destruct (JS.truthy (Row.quickReplies row)); [|discriminate].
  destruct (JSON_parse (Row.quickReplies row)); discriminate.
Qed.

(** ** Unknown bots *)

Lemma handleChat_unknown (e : env) (botId message : string) (w : world) :
  bots w !! botId = None ->
  handleChat e botId message w = (w, Throw (Exn "Error" "bot not found")).
Proof.
  intros H. unfold handleChat. run_m. now rewrite (getBot_missing _ _ H).
Qed.

Lemma falsy_some (s : string) : s <> EmptyString -> JS.falsy (Some s) = false.
Proof. intros H. cbn. now apply truthy_true in H as ->. Qed.

(** C1. For a [botId] no bot has, [handleChat] throws [Error('bot not found')];
    [POST /api/message] answers that request with status 500 and the message
    as [error], whereas the settings route answers the same [botId] with
    status 404. *)
Theorem C1_unknown_bot_message_500 (e : env) (botId message : string) (w : world) :
  botId <> EmptyString -> message <> EmptyString ->
  bots w !! botId = None ->
  handleChat e botId message w = (w, Throw (Exn "Error" "bot not found"))
  /\ post_message e (MessageBody.mk (Some botId) (Some message)) w
     = (w, Response 500 (BError "bot not found"))
  /\ get_settings botId w = (w, Response 404 (BError "bot not found")).
Proof.
  intros Hb Hm H. split; [now apply handleChat_unknown|]. split.
  - unfold post_message, post_message_handler. run_m.
    cbn [MessageBody.botId MessageBody.message].
    rewrite (falsy_some _ Hb), (falsy_some _ Hm). cbn [orb default]. unfold id.
    now rewrite (handleChat_unknown e _ _ _ H).
  - unfold get_settings, get_settings_handler. run_m.
    now rewrite (getBot_missing _ _ H).
Qed.

Lemma C1_unknown_bot_message_500_witness :
  handleChat sample_env "ghost" "what is up" sample_world
  = (sample_world, Throw (Exn "Error" "bot not found"))
  /\ post_message sample_env (MessageBody.mk (Some "ghost") (Some "what is up")) sample_world
     = (sample_world, Response 500 (BError "bot not found"))
  /\ get_settings "ghost" sample_world
     = (sample_world, Response 404 (BError "bot not found")).
Proof.
  apply (C1_unknown_bot_message_500 sample_env "ghost" "what is up" sample_world).
  - discriminate.
  - discriminate.
  - vm_compute. reflexivity.
Defined.

Lemma sample_getBot : getBot "bot-1" sample_world = (sample_world, Ret (Some sample_bot)).
Proof. vm_compute. reflexivity. Qed.

(** ** Settings *)

Lemma post_settings_found (botId : string) (p : Patch.t) (w : world) (bot : Bot.t) :
  getBot botId w = (w, Ret (Some bot)) ->
  post_settings botId p w
  = (World (alter (update_row
                     (JS.opt_or (Patch.avatar p) (Bot.avatar bot))
                     (JS.opt_or (Patch.themeColor p) (Bot.themeColor bot))
                     (JS.opt_or (Patch.welcome p) (Bot.welcome bot))
                     (Json.stringify_strings
                        (JS.arr_or (Patch.quickReplies p) (Bot.quickReplies bot))))
                  botId (bots w))
           (documents w) (uploads w),
     Response 200 BOk).
Proof.
  intros H. unfold post_settings, post_settings_handler. run_m. now rewrite H.
Qed.

(** C2 (amended). On an existing bot, [POST /api/bot/:botId/settings] answers
    200 and afterwards [getBot] finds the bot with the same [id] and [name];
    each of [avatar], [themeColor], [welcome] holds the supplied value when
    that is a non-empty string and the stored value when the field is absent
    or the empty string; [quickReplies] holds the supplied list (the empty
    list included) and the stored list when the field is absent. *)
Theorem C2_settings_patch (botId : string) (p : Patch.t) (w : world) (bot : Bot.t) :
  getBot botId w = (w, Ret (Some bot)) ->
  exists w' bot',
    post_settings botId p w = (w', Response 200 BOk)
    /\ getBot botId w' = (w', Ret (Some bot'))
    /\ Bot.id bot' = Bot.id bot
    /\ Bot.name bot' = Bot.name bot
    /\ chosen (Patch.avatar p) (Bot.avatar bot) (Bot.avatar bot')
    /\ chosen (Patch.themeColor p) (Bot.themeColor bot) (Bot.themeColor bot')
    /\ chosen (Patch.welcome p) (Bot.welcome bot) (Bot.welcome bot')
    /\ chosen_list (Patch.quickReplies p) (Bot.quickReplies bot) (Bot.quickReplies bot').
Proof.
  intros H. rewrite (post_settings_found _ p _ _ H).
  destruct (getBot_found _ _ _ _ H) as [_ [row [Hrow [Hid [Hname _]]]]].
  eexists _, _. split; [reflexivity|]. split.
  - eapply getBot_stored.
    + cbn [bots]. rewrite lookup_alter_eq, Hrow. reflexivity.
    + reflexivity.
  - cbn. rewrite Hid, Hname. repeat split; try apply chosen_opt_or;
      try apply chosen_list_arr_or; apply chosen_opt_or.
Qed.

Lemma C2_settings_patch_witness :
  exists w' bot',
    post_settings "bot-1" (Patch.mk (Some "new.png") None (Some EmptyString) (Some [])) sample_world
    = (w', Response 200 BOk)
    /\ getBot "bot-1" w' = (w', Ret (Some bot'))
    /\ Bot.id bot' = "bot-1"
    /\ Bot.name bot' = "Shop"
    /\ chosen (Some "new.png") "shop.png" (Bot.avatar bot')
    /\ chosen None "#112233" (Bot.themeColor bot')
    /\ chosen (Some EmptyString) "Welcome!" (Bot.welcome bot')
    /\ chosen_list (Some []) ["Pricing"; "Contact"] (Bot.quickReplies bot').
Proof.
  exact (C2_settings_patch "bot-1"
           (Patch.mk (Some "new.png") None (Some EmptyString) (Some []))
           sample_world sample_bot sample_getBot).
Defined.

(** C2 as stated fails: a [welcome] supplied as the empty string does not
    replace the stored text. *)
Lemma C2_counterexample :
  exists w' bot',
    post_settings "bot-1" (Patch.mk None None (Some EmptyString) None) sample_world
    = (w', Response 200 BOk)
    /\ getBot "bot-1" w' = (w', Ret (Some bot'))
    /\ Bot.welcome bot' = "Welcome!"
    /\ ~ kept_as_supplied (Some EmptyString) (Bot.welcome sample_bot) (Bot.welcome bot').
Proof.
  eexists _, _. split; [vm_compute; reflexivity|].
  split; [vm_compute; reflexivity|].
  split; [reflexivity | discriminate].
Qed.

(** ** Creating a bot and reading it back *)

Lemma post_bot_fresh (e : env) (b : BotBody.t) (n : string) (w : world) :
  BotBody.name b = Some n -> n <> EmptyString ->
  bots w !! uuidv4 e = None ->
  post_bot e b w
  = (World (<[uuidv4 e :=
               Row.mk (uuidv4 e) n
                      (JS.opt_or (BotBody.avatar b) EmptyString)
                      (JS.opt_or (BotBody.themeColor b) "#4CAF50")
                      (JS.opt_or (BotBody.welcome b) "Hi! How can I help?")
                      (Json.stringify_strings (JS.arr_or (BotBody.quickReplies b) []))
                      (Date_now e)]> (bots w))
           (documents w) (uploads w),
     Response 200 (BBotId (uuidv4 e))).
Proof.
  intros Hn Hne Hfresh. unfold post_bot, post_bot_handler, createBotRecord.
  rewrite Hn, (falsy_some _ Hne). run_m. cbn [NewBot.id]. rewrite Hfresh.
  reflexivity.
Qed.

Lemma create_then_get (e : env) (b : BotBody.t) (n : string) (w : world) :
  BotBody.name b = Some n -> n <> EmptyString ->
  bots w !! uuidv4 e = None ->
  exists w',
    post_bot e b w = (w', Response 200 (BBotId (uuidv4 e)))
    /\ get_settings (uuidv4 e) w'
       = (w', Response 200
                (BSettings
                   (Settings.mk (uuidv4 e) n
                      (JS.opt_or (BotBody.avatar b) EmptyString)
                      (JS.opt_or (BotBody.themeColor b) "#4CAF50")
                      (JS.opt_or (BotBody.welcome b) "Hi! How can I help?")
                      (JS.arr_or (BotBody.quickReplies b) [])))).
Proof.
  intros Hn Hne Hfresh. rewrite (post_bot_fresh e b n w Hn Hne Hfresh).
  eexists. split; [reflexivity|].
  set (row := Row.mk (uuidv4 e) n (JS.opt_or (BotBody.avatar b) EmptyString)
                (JS.opt_or (BotBody.themeColor b) "#4CAF50")
                (JS.opt_or (BotBody.welcome b) "Hi! How can I help?")
                (Json.stringify_strings (JS.arr_or (BotBody.quickReplies b) []))
                (Date_now e)).
  set (w' := World (<[uuidv4 e := row]> (bots w)) (documents w) (uploads w)).
  assert (Hget : getBot (uuidv4 e) w' = (w', Ret (Some
            (Bot.mk (Row.id row) (Row.name row) (Row.avatar row) (Row.themeColor row)
                    (Row.welcome row) (JS.arr_or (BotBody.quickReplies b) [])
                    (Row.createdAt row))))).
  { apply getBot_stored; [apply lookup_insert_eq | reflexivity]. }
  unfold get_settings, get_settings_handler. run_m. rewrite Hget. reflexivity.
Qed.

Lemma post_bot_created (e : env) (b : BotBody.t) (w w' : world) (id : string) :
  post_bot e b w = (w', Response 200 (BBotId id)) ->
  exists n, BotBody.name b = Some n /\ n <> EmptyString
            /\ bots w !! uuidv4 e = None /\ id = uuidv4 e.
Proof.
  unfold post_bot, post_bot_handler, createBotRecord. run_m. intros H.
  destruct (BotBody.name b) as [n|]; [|discriminate].
  destruct n as [|c n]; [discriminate|]. cbn [JS.falsy JS.truthy negb] in H.
  cbn [NewBot.id] in H.
  destruct (bots w !! uuidv4 e); [discriminate|].
  injection H as _ <-. exists (String c n). repeat split. discriminate.
Qed.

(** C8 (amended). When [POST /api/bot] answers 200 with an identifier, the
    [name] given was a non-empty string and [GET /api/bot/:botId/settings] on
    that identifier returns that [id] and that [name]; each of [avatar],
    [themeColor], [welcome] is the supplied value when that is a non-empty
    string, and otherwise (field absent or empty) the default: the empty
    string, [#4CAF50], [Hi! How can I help?]; [quickReplies] is the supplied
    list, and the empty list when the field is absent. *)
Theorem C8_create_roundtrip (e : env) (b : BotBody.t) (w w' : world) (id : string) :
  post_bot e b w = (w', Response 200 (BBotId id)) ->
  exists n s,
    BotBody.name b = Some n /\ n <> EmptyString
    /\ get_settings id w' = (w', Response 200 (BSettings s))
    /\ Settings.id s = id
    /\ Settings.name s = n
    /\ chosen (BotBody.avatar b) EmptyString (Settings.avatar s)
    /\ chosen (BotBody.themeColor b) "#4CAF50" (Settings.themeColor s)
    /\ chosen (BotBody.welcome b) "Hi! How can I help?" (Settings.welcome s)
    /\ chosen_list (BotBody.quickReplies b) [] (Settings.quickReplies s).
Proof.
  intros Hpost.
  destruct (post_bot_created e b w w' id Hpost) as [n [Hn [Hne [Hfresh ->]]]].
  destruct (create_then_get e b n w Hn Hne Hfresh) as [w1 [Hpost1 Hget]].
  rewrite Hpost in Hpost1. injection Hpost1 as <-.
  eexists n, _. split; [exact Hn|]. split; [exact Hne|]. split; [exact Hget|]. cbn.
  split; [reflexivity|]. split; [reflexivity|].
  split; [apply chosen_opt_or|]. split; [apply chosen_opt_or|].
  split; [apply chosen_opt_or | apply chosen_list_arr_or].
Qed.

Lemma C8_create_roundtrip_witness :
  exists n s,
    BotBody.name cafe_body = Some n /\ n <> EmptyString
    /\ get_settings "id-2" (fst (post_bot sample_env cafe_body sample_world))
       = (fst (post_bot sample_env cafe_body sample_world), Response 200 (BSettings s))
    /\ Settings.id s = "id-2"
    /\ Settings.name s = n
    /\ chosen None EmptyString (Settings.avatar s)
    /\ chosen (Some "#000000") "#4CAF50" (Settings.themeColor s)
    /\ chosen None "Hi! How can I help?" (Settings.welcome s)
    /\ chosen_list (Some ["Menu"]) [] (Settings.quickReplies s).
Proof.
  apply (C8_create_roundtrip sample_env cafe_body sample_world
           (fst (post_bot sample_env cafe_body sample_world)) "id-2").
  vm_compute. reflexivity.
Defined.

(** C8 as stated fails: a [themeColor] supplied as the empty string is not
    reproduced, the default comes back. *)
Lemma C8_counterexample :
  exists w' s,
    post_bot sample_env (BotBody.mk (Some "Cafe") None (Some EmptyString) None None)
             sample_world
    = (w', Response 200 (BBotId "id-2"))
    /\ get_settings "id-2" w' = (w', Response 200 (BSettings s))
    /\ Settings.themeColor s = "#4CAF50"
    /\ ~ kept_as_supplied (Some EmptyString) "#4CAF50" (Settings.themeColor s).
Proof.
  eexists _, _. split; [vm_compute; reflexivity|].
  split; [vm_compute; reflexivity|].
  split; [reflexivity | discriminate].
Qed.

(** C10. When a bot is created without [avatar], the row written has the
    empty string as [avatar], and [GET /api/bot/:botId/settings] on the
    returned identifier answers with [avatar] equal to the empty string. *)
Theorem C10_missing_avatar_is_empty (e : env) (b : BotBody.t) (w w' : world)
        (id : string) :
  post_bot e b w = (w', Response 200 (BBotId id)) ->
  BotBody.avatar b = None ->
  exists s row,
    get_settings id w' = (w', Response 200 (BSettings s))
    /\ Settings.avatar s = EmptyString
    /\ bots w' !! id = Some row
    /\ Row.avatar row = EmptyString.
Proof.
  intros Hpost Hav.
  destruct (post_bot_created e b w w' id Hpost) as [n [Hn [Hne [Hfresh ->]]]].
  destruct (create_then_get e b n w Hn Hne Hfresh) as [w1 [Hpost1 Hget]].
  rewrite Hpost in Hpost1. injection Hpost1 as <-.
  rewrite (post_bot_fresh e b n w Hn Hne Hfresh) in Hpost. injection Hpost as Hw'.
  eexists _, _. split; [exact Hget|]. rewrite <- Hw', Hav.
  split; [reflexivity|]. split; [cbn [bots]; apply lookup_insert_eq | reflexivity].
Qed.

Lemma C10_missing_avatar_is_empty_witness :
  exists s row,
    get_settings "id-2" (fst (post_bot sample_env plain_body sample_world))
    = (fst (post_bot sample_env plain_body sample_world), Response 200 (BSettings s))
    /\ Settings.avatar s = EmptyString
    /\ bots (fst (post_bot sample_env plain_body sample_world)) !! "id-2" = Some row
    /\ Row.avatar row = EmptyString.
Proof.
  apply (C10_missing_avatar_is_empty sample_env plain_body sample_world
           (fst (post_bot sample_env plain_body sample_world)) "id-2").
  - vm_compute. reflexivity.
  - reflexivity.
Defined.

(** ** Uploads and the temporary file *)

(** A text upload that is stored: the document, with the text of the file,
    is appended and the temporary file is removed. *)
Lemma upload_text_ok (e : env) (botId : string) (f : File.t) (w : world)
      (bot : Bot.t) (content : string) :
  getBot botId w = (w, Ret (Some bot)) ->
  is_pdf f = false ->
  uploads w !! File.path f = Some content ->
  existsb (fun d => String.eqb (Doc.id d) (uuidv4 e)) (documents w) = false ->
  post_upload e botId (Some f) w
  = (World (bots w)
           (documents w ++ [Doc.mk (uuidv4 e) botId (File.originalname f)
                                   (Utf8.toString content) (Date_now e)])
           (delete (File.path f) (uploads w)),
     Response 200 (BUploaded (File.originalname f))).
Proof.
  intros Hbot Hpdf Hfile Hid. unfold is_pdf in Hpdf.
  unfold post_upload, post_upload_handler, saveDocument, unlinkSync,
    readFileSync_utf8, readFileSync.
  run_m. rewrite Hbot, Hpdf, Hfile, Hid. cbn [uploads]. rewrite Hfile. reflexivity.
Qed.

(** A PDF upload whose extraction succeeds: same outcome. *)
Lemma upload_pdf_ok (e : env) (botId : string) (f : File.t) (w : world)
      (bot : Bot.t) (content : string) (text : option string) :
  getBot botId w = (w, Ret (Some bot)) ->
  is_pdf f = true ->
  uploads w !! File.path f = Some content ->
  pdf e content = Ret text ->
  existsb (fun d => String.eqb (Doc.id d) (uuidv4 e)) (documents w) = false ->
  post_upload e botId (Some f) w
  = (World (bots w)
           (documents w ++ [Doc.mk (uuidv4 e) botId (File.originalname f)
                                   (JS.opt_or text EmptyString) (Date_now e)])
           (delete (File.path f) (uploads w)),
     Response 200 (BUploaded (File.originalname f))).
Proof.
  intros Hbot Hpdf Hfile Hext Hid. unfold is_pdf in Hpdf.
  unfold post_upload, post_upload_handler, saveDocument, unlinkSync, readFileSync.
  run_m. rewrite Hbot, Hpdf, Hfile, Hext, Hid. cbn [uploads]. rewrite Hfile. reflexivity.
Qed.

(** C3 (the failure half, as the code behaves). When extraction throws, or
    when storing the document throws, [POST /api/bot/:botId/upload] answers
    500 with the error text and leaves the world as it was: the temporary
    file is still in the upload directory. *)
Theorem C3_failed_upload_keeps_temp_file (e : env) (botId : string) (f : File.t)
        (w : world) (bot : Bot.t) (content : string) :
  getBot botId w = (w, Ret (Some bot)) ->
  uploads w !! File.path f = Some content ->
  (forall err, is_pdf f = true -> pdf e content = Throw err ->
     post_upload e botId (Some f) w = (w, Response 500 (BError (upload_error_text err)))
     /\ uploads (fst (post_upload e botId (Some f) w)) !! File.path f = Some content)
  /\ (is_pdf f = false ->
      existsb (fun d => String.eqb (Doc.id d) (uuidv4 e)) (documents w) = true ->
      post_upload e botId (Some f) w
      = (w, Response 500 (BError "UNIQUE constraint failed: documents.id"))
      /\ uploads (fst (post_upload e botId (Some f) w)) !! File.path f = Some content).
Proof.
  intros Hbot Hfile. split.
  - intros err Hpdf Hext. unfold is_pdf in Hpdf.
    assert (H : post_upload e botId (Some f) w
                = (w, Response 500 (BError (upload_error_text err)))).
    { unfold post_upload, post_upload_handler, readFileSync. run_m.
      rewrite Hbot, Hpdf, Hfile, Hext. reflexivity. }
    rewrite H. split; [reflexivity | exact Hfile].
  - intros Hpdf Hid. unfold is_pdf in Hpdf.
    assert (H : post_upload e botId (Some f) w
                = (w, Response 500 (BError "UNIQUE constraint failed: documents.id"))).
    { unfold post_upload, post_upload_handler, saveDocument, readFileSync_utf8,
        readFileSync. run_m.
      rewrite Hbot, Hpdf, Hfile, Hid. reflexivity. }
    rewrite H. split; [reflexivity | exact Hfile].
Qed.

Lemma C3_failed_upload_keeps_temp_file_witness :
  post_upload sample_env "bot-1" (Some sample_file) sample_world
  = (sample_world, Response 500 (BError "Invalid PDF structure"))
  /\ uploads (fst (post_upload sample_env "bot-1" (Some sample_file) sample_world))
       !! "uploads/3f9c" = Some "%PDF-1.4 broken".
Proof.
  refine (proj1 (C3_failed_upload_keeps_temp_file sample_env "bot-1" sample_file
                   sample_world sample_bot "%PDF-1.4 broken" _ _) pdf_error _ _).
  - exact sample_getBot.
  - vm_compute. reflexivity.
  - reflexivity.
  - reflexivity.
Defined.

(** ** The context scan *)

Lemma doc_test_spec (tok : string) (d : Doc.t) :
  JS.truthy (Doc.text d) && JS.includes (JS.toLowerCase (Doc.text d)) tok = true
  <-> doc_matches tok d.
Proof.
  unfold doc_matches. now rewrite andb_true_iff, truthy_true, includes_spec.
Qed.

Lemma message_token (message tok : string) :
  first_field JS.space (JS.toLowerCase message) tok ->
  JS.first (JS.split JS.space (JS.toLowerCase message)) = tok.
Proof.
  intros H. eapply first_field_unique; [apply split_first_field | exact H].
Qed.

Lemma foundText_none (docs : list Doc.t) (message tok : string) :
  first_field JS.space (JS.toLowerCase message) tok ->
  Forall (fun x => ~ doc_matches tok x) docs ->
  foundText docs message = EmptyString.
Proof.
  intros Htok. induction 1 as [|d docs Hd _ IH]; [reflexivity|].
  cbn [foundText]. rewrite (message_token _ _ Htok).
  destruct (JS.truthy (Doc.text d) && JS.includes (JS.toLowerCase (Doc.text d)) tok)
    eqn:E; [|exact IH].
  now apply doc_test_spec in E.
Qed.

Lemma foundText_first (pre : list Doc.t) :
  forall (d : Doc.t) (post : list Doc.t) (message tok : string),
    first_field JS.space (JS.toLowerCase message) tok ->
    Forall (fun x => ~ doc_matches tok x) pre ->
    doc_matches tok d ->
    foundText (pre ++ d :: post) message = JS.slice0 800 (Doc.text d).
Proof.
  induction pre as [|x pre IH]; intros d post message tok Htok Hpre Hd.
  - cbn [app foundText]. rewrite (message_token _ _ Htok).
    now apply doc_test_spec in Hd as ->.
  - apply Forall_cons in Hpre as [Hx Hpre].
    change (foundText (x :: (pre ++ d :: post)%list) message = JS.slice0 800 (Doc.text d)).
    cbn [foundText]. rewrite (message_token _ _ Htok).
    destruct (JS.truthy (Doc.text x) && JS.includes (JS.toLowerCase (Doc.text x)) tok)
      eqn:E; [now apply doc_test_spec in E|].
    now apply (IH d post message tok).
Qed.

Lemma foundText_truthy_iff (docs : list Doc.t) (message : string) :
  foundText docs message <> EmptyString
  <-> Exists (doc_matches (JS.first (JS.split JS.space (JS.toLowerCase message)))) docs.
Proof.
  induction docs as [|d docs IH]; cbn [foundText].
  - split; [congruence | intros H; inversion H].
  - destruct (JS.truthy (Doc.text d)
              && JS.includes (JS.toLowerCase (Doc.text d))
                   (JS.first (JS.split JS.space (JS.toLowerCase message)))) eqn:E.
    + split; [intros _; left; now apply doc_test_spec|].
      intros _. apply andb_true_iff in E as [E _].
      rewrite <- truthy_true, slice0_truthy. exact E.
    + rewrite IH. split; [now right|].
      intros H. inversion H as [? ? Hd|]; subst; [|assumption].
      apply doc_test_spec in Hd. congruence.
Qed.

(** C4 (amended). [docs] being the documents of the bot in stored order and
    [tok] what precedes the first space of the lowercased message (the whole
    of it when it has no space, the empty string when it is empty or starts
    with a space), the scan returns the first 800 code units of the first
    document that has a non-empty text whose lowercased form contains [tok],
    and the empty string when no document is such. *)
Theorem C4_context_first_match (w : world) (botId : string) (docs : list Doc.t)
        (message tok : string) :
  getBotDocuments botId w = (w, Ret docs) ->
  first_field JS.space (JS.toLowerCase message) tok ->
  docs = List.filter (fun d => String.eqb (Doc.botId d) botId) (documents w)
  /\ (forall pre d post,
        docs = (pre ++ d :: post)%list ->
        Forall (fun x => ~ doc_matches tok x) pre ->
        doc_matches tok d ->
        foundText docs message = JS.slice0 800 (Doc.text d)
        /\ prefix_upto 800 (Doc.text d) (foundText docs message))
  /\ (Forall (fun x => ~ doc_matches tok x) docs ->
      foundText docs message = EmptyString).
Proof.
  intros Hdocs Htok. split; [|split].
  - unfold getBotDocuments in Hdocs. run_m. now injection Hdocs as <-.
  - intros pre d post -> Hpre Hd.
    rewrite (foundText_first pre d post message tok Htok Hpre Hd).
    split; [reflexivity | apply slice0_prefix].
  - now apply foundText_none.
Qed.

Lemma C4_context_first_match_witness :
  foundText sample_docs "Dogs are great" = JS.slice0 800 "dogs bark loudly"
  /\ prefix_upto 800 "dogs bark loudly" (foundText sample_docs "Dogs are great").
Proof.
  refine (proj1 (proj2 (C4_context_first_match sample_world "bot-1" sample_docs
                          "Dogs are great" "dogs" _ _))
                [Doc.mk "doc-1" "bot-1" "cat.txt" "The cat sat" 1100]
                (Doc.mk "doc-2" "bot-1" "dogs.txt" "dogs bark loudly" 1200) [] _ _ _).
  - reflexivity.
  - split; [cbn; repeat split; discriminate | right; now exists "are great"].
  - reflexivity.
  - constructor; [|constructor].
    intros [_ H]. apply includes_spec in H. discriminate.
  - split; [discriminate | apply includes_spec; reflexivity].
Defined.

(** C4 as stated fails: the message of one space has no token, yet the scan
    returns the first document that has a text. *)
Lemma C4_counterexample :
  Spec.first_token (JS.toLowerCase " ") = None
  /\ Spec.FindContext sample_docs " " = EmptyString
  /\ foundText sample_docs " " = "The cat sat"
  /\ foundText sample_docs " " <> Spec.FindContext sample_docs " ".
Proof. repeat split. discriminate. Qed.

Example context_dogs : foundText sample_docs "dogs are great" = "dogs bark loudly".
Proof. reflexivity. Qed.

Example context_no_match : foundText sample_docs "zzz nothing" = EmptyString.
Proof. reflexivity. Qed.

Example context_empty_message : foundText sample_docs EmptyString = "The cat sat".
Proof. reflexivity. Qed.

(** A tab does not end the token. *)
Example context_tab_message :
  foundText sample_docs ("dogs" +:+ JS.chr "009"%char +:+ "bark") = EmptyString
  /\ Spec.FindContext sample_docs ("dogs" +:+ JS.chr "009"%char +:+ "bark")
     = "dogs bark loudly".
Proof. split; reflexivity. Qed.

(** ** Lines *)

Lemma split_nonempty (c : ascii) (s : string) : JS.split c s <> [].
Proof.
  destruct s as [|x s]; cbn [JS.split]; [discriminate|].
  destruct (Ascii.eqb x c); [discriminate|]. now destruct (JS.split c s).
Qed.

Lemma join_split (c : ascii) (s : string) : JS.join (JS.chr c) (JS.split c s) = s.
Proof.
  induction s as [|x s IH]; [reflexivity|]. cbn [JS.split].
  destruct (Ascii.eqb_spec x c) as [->|Hne].
  - pose proof (split_nonempty c s) as Hs.
    destruct (JS.split c s) as [|h t]; [congruence|].
    rewrite join_cons2, IH. reflexivity.
  - pose proof (split_nonempty c s) as Hs.
    destruct (JS.split c s) as [|h t]; [congruence|].
    destruct t as [|h' t].
    + cbn [JS.join] in *. now rewrite IH.
    + rewrite join_cons2 in *. rewrite <- IH. reflexivity.
Qed.

Lemma split_free (c : ascii) (s : string) : Forall (free_of c) (JS.split c s).
Proof.
  induction s as [|x s IH]; cbn [JS.split]; [repeat constructor|].
  destruct (Ascii.eqb_spec x c) as [->|Hne]; [now constructor|].
  destruct (JS.split c s) as [|h t]; [repeat constructor; assumption|].
  apply Forall_cons in IH as [Hh Ht]. constructor; [now split | assumption].
Qed.

(** The excerpt of a non-empty context is never empty. *)
Lemma excerpt_nonempty (context : string) :
  context <> EmptyString ->
  JS.join (JS.chr JS.newline) (take 4 (JS.split JS.newline context)) <> EmptyString.
Proof.
  intros Hc. pose proof (join_split JS.newline context) as Hj.
  destruct (JS.split JS.newline context) as [|h [|h' t]].
  - cbn in Hj. congruence.
  - cbn in *. congruence.
  - cbn [take]. destruct (take 2 t) as [|? ?] eqn:E; rewrite join_cons2; now destruct h.
Qed.

(** ** The reply resolver *)

Lemma getBotDocuments_eq (botId : string) (w : world) :
  getBotDocuments botId w
  = (w, Ret (List.filter (fun d => String.eqb (Doc.botId d) botId) (documents w))).
Proof. reflexivity. Qed.

(** What [handleChat] returns for an existing bot. *)
Lemma handleChat_found (e : env) (botId message : string) (w : world)
      (bot : Bot.t) (docs : list Doc.t) :
  getBot botId w = (w, Ret (Some bot)) ->
  getBotDocuments botId w = (w, Ret docs) ->
  handleChat e botId message w
  = (w, Ret (if JS.truthy (HF_API_KEY e)
             then match generate e (foundText docs message) message with
                  | Ret text => Chat.mk text (Bot.quickReplies bot)
                  | Throw _ => local_reply bot (foundText docs message) message
                  end
             else local_reply bot (foundText docs message) message)).
Proof.
  intros Hbot Hdocs. unfold handleChat. run_m. rewrite Hbot, Hdocs.
  destruct (JS.truthy (HF_API_KEY e)); [|reflexivity].
  now destruct (generate e (foundText docs message) message).
Qed.

Lemma local_reply_quickReplies (bot : Bot.t) (context message : string) :
  Chat.quickReplies (local_reply bot context message) = Bot.quickReplies bot.
Proof.
  unfold local_reply.
  destruct (JS.includes (JS.toLowerCase message) "hello"
            || JS.includes (JS.toLowerCase message) "hi"); [reflexivity|].
  now destruct (JS.truthy context).
Qed.

(** C5. Without a credential, for an existing bot: a message whose lowercased
    form contains [hello] or [hi] is answered with the stored [welcome];
    otherwise a non-empty context is answered with its first four lines
    joined by newlines (with the fixed text about a partial answer when that
    join is empty); otherwise the answer is the fixed text about not knowing. *)
Theorem C5_local_reply_order (e : env) (botId message : string) (w : world)
        (bot : Bot.t) (docs : list Doc.t) :
  getBot botId w = (w, Ret (Some bot)) ->
  getBotDocuments botId w = (w, Ret docs) ->
  HF_API_KEY e = EmptyString ->
  exists reply,
    handleChat e botId message w = (w, Ret (Chat.mk reply (Bot.quickReplies bot)))
    /\ (contains (JS.toLowerCase message) "hello" \/ contains (JS.toLowerCase message) "hi" ->
        reply = JStr (Bot.welcome bot))
    /\ (~ contains (JS.toLowerCase message) "hello" ->
        ~ contains (JS.toLowerCase message) "hi" ->
        foundText docs message <> EmptyString ->
        forall ans,
          ans = JS.join (JS.chr JS.newline)
                        (take 4 (JS.split JS.newline (foundText docs message))) ->
          (ans <> EmptyString -> reply = JStr ans)
          /\ (ans = EmptyString -> reply = JStr found_but_no_answer))
    /\ (~ contains (JS.toLowerCase message) "hello" ->
        ~ contains (JS.toLowerCase message) "hi" ->
        foundText docs message = EmptyString ->
        reply = JStr dont_know).
Proof.
  intros Hbot Hdocs Hkey.
  rewrite (handleChat_found e botId message w bot docs Hbot Hdocs), Hkey.
  cbn [JS.truthy]. unfold local_reply.
  destruct (JS.includes (JS.toLowerCase message) "hello") eqn:Ehello;
    [|destruct (JS.includes (JS.toLowerCase message) "hi") eqn:Ehi].
  - apply includes_spec in Ehello.
    eexists. split; [reflexivity|]. split; [reflexivity|]. split; intros; contradiction.
  - apply includes_spec in Ehi.
    eexists. split; [reflexivity|]. split; [reflexivity|]. split; intros; contradiction.
  - apply includes_false in Ehello, Ehi. cbn [orb].
    destruct (JS.truthy (foundText docs message)) eqn:Ectx.
    + eexists. split; [reflexivity|]. split; [intros [?|?]; contradiction|].
      split.
      * intros _ _ _ ans ->. split.
        -- intros Hans. now rewrite or_else_truthy.
        -- intros ->. reflexivity.
      * intros _ _ Hctx. apply truthy_true in Ectx. contradiction.
    + eexists. split; [reflexivity|]. split; [intros [?|?]; contradiction|].
      split.
      * intros _ _ Hctx. apply truthy_false in Ectx. contradiction.
      * reflexivity.
Qed.

Lemma sample_getBotDocuments :
  getBotDocuments "bot-1" sample_world = (sample_world, Ret sample_docs).
Proof. reflexivity. Qed.

Lemma C5_local_reply_order_witness :
  exists reply,
    handleChat sample_env "bot-1" "Cat food?" sample_world
    = (sample_world, Ret (Chat.mk reply ["Pricing"; "Contact"]))
    /\ (contains (JS.toLowerCase "Cat food?") "hello"
        \/ contains (JS.toLowerCase "Cat food?") "hi" ->
        reply = JStr "Welcome!")
    /\ (~ contains (JS.toLowerCase "Cat food?") "hello" ->
        ~ contains (JS.toLowerCase "Cat food?") "hi" ->
        foundText sample_docs "Cat food?" <> EmptyString ->
        forall ans,
          ans = JS.join (JS.chr JS.newline)
                        (take 4 (JS.split JS.newline (foundText sample_docs "Cat food?"))) ->
          (ans <> EmptyString -> reply = JStr ans)
          /\ (ans = EmptyString -> reply = JStr found_but_no_answer))
    /\ (~ contains (JS.toLowerCase "Cat food?") "hello" ->
        ~ contains (JS.toLowerCase "Cat food?") "hi" ->
        foundText sample_docs "Cat food?" = EmptyString ->
        reply = JStr dont_know).
Proof.
  exact (C5_local_reply_order sample_env "bot-1" "Cat food?" sample_world
           sample_bot sample_docs sample_getBot sample_getBotDocuments eq_refl).
Defined.

Example chat_context_excerpt :
  handleChat sample_env "bot-1" "Cat food?" sample_world
  = (sample_world, Ret (Chat.mk (JStr "The cat sat") ["Pricing"; "Contact"])).
Proof. vm_compute. reflexivity. Qed.

Example chat_greeting_inside_word :
  handleChat sample_env "bot-1" "zzz nothing" sample_world
  = (sample_world, Ret (Chat.mk (JStr "Welcome!") ["Pricing"; "Contact"])).
Proof. vm_compute. reflexivity. Qed.

(** The provider is asked first, also for a greeting. *)
Example chat_inference_first :
  handleChat answering_env "bot-1" "hello" sample_world
  = (sample_world, Ret (Chat.mk (JStr "Forty-two.") ["Pricing"; "Contact"])).
Proof. vm_compute. reflexivity. Qed.

Example chat_no_match :
  handleChat sample_env "bot-1" "zzz" sample_world
  = (sample_world, Ret (Chat.mk (JStr dont_know) ["Pricing"; "Contact"])).
Proof. vm_compute. reflexivity. Qed.

(** When the [try] block throws: the call was rejected, or the body is [null]. *)
Lemma generate_throws (e : env) (context message : string) (err : exn) :
  generate e context message = Throw err
  <-> axios_post e (prompt context message) = Throw err
      \/ (axios_post e (prompt context message) = Ret JNull
          /\ err = Exn "TypeError"
                       "Cannot read properties of null (reading 'generated_text')").
Proof.
  unfold generate. destruct (axios_post e (prompt context message)) as [data|err'].
  - split.
    + intros H. right. unfold response_text in H.
      destruct (is_array data && opt_truthy (first_generated_text data));
        [discriminate|].
      destruct data; try (destruct (opt_truthy _); discriminate).
      injection H as <-. now split.
    + intros [H|[H ->]]; [discriminate|]. now injection H as ->.
  - split; [intros H; now left | intros [H|[H _]]; [assumption | discriminate]].
Qed.

Lemma response_text_unexpected (data : json) :
  unexpected_shape data -> response_text data = Ret (JStr (Json.stringify data)).
Proof.
  intros [Hnull [Hfirst Hown]]. unfold response_text.
  rewrite Hfirst, andb_false_r, Hown. now destruct data.
Qed.

(** C6 (amended). With a credential configured and an existing bot,
    [handleChat] never throws, whatever the provider does.  When the call is
    rejected (timeout, transport error, status outside 2xx) or the body is
    [null], the result is the reply of the local branches.  When the call
    succeeds with a body in which no [generated_text] is found, the reply is
    the serialized body (its text is stated for the bodies whose numbers are
    safe integers).  [POST /api/message] answers 200 in each case. *)
Theorem C6_inference_outcomes (e : env) (botId message : string) (w : world)
        (bot : Bot.t) (docs : list Doc.t) :
  getBot botId w = (w, Ret (Some bot)) ->
  getBotDocuments botId w = (w, Ret docs) ->
  HF_API_KEY e <> EmptyString ->
  (exists r, handleChat e botId message w = (w, Ret r))
  /\ (forall err,
        axios_post e (prompt (foundText docs message) message) = Throw err ->
        handleChat e botId message w
        = (w, Ret (local_reply bot (foundText docs message) message)))
  /\ (axios_post e (prompt (foundText docs message) message) = Ret JNull ->
      handleChat e botId message w
      = (w, Ret (local_reply bot (foundText docs message) message)))
  /\ (forall data,
        axios_post e (prompt (foundText docs message) message) = Ret data ->
        unexpected_shape data ->
        Json.safe data = true ->
        handleChat e botId message w
        = (w, Ret (Chat.mk (JStr (Json.stringify data)) (Bot.quickReplies bot))))
  /\ (botId <> EmptyString -> message <> EmptyString ->
      exists r, post_message e (MessageBody.mk (Some botId) (Some message)) w
                = (w, Response 200 (BChat r))).
Proof.
  intros Hbot Hdocs Hkey.
  pose proof (handleChat_found e botId message w bot docs Hbot Hdocs) as Hrun.
  apply truthy_true in Hkey. rewrite Hkey in Hrun.
  assert (Hfail : forall err,
             generate e (foundText docs message) message = Throw err ->
             handleChat e botId message w
             = (w, Ret (local_reply bot (foundText docs message) message))).
  { intros err Hgen. now rewrite Hrun, Hgen. }
  split; [rewrite Hrun; eexists; reflexivity|].
  split; [intros err Hpost; apply (Hfail err), generate_throws; now left|].
  split; [intros Hpost; eapply Hfail, generate_throws; right; now split|].
  split.
  - intros data Hpost Hshape _. rewrite Hrun. unfold generate.
    now rewrite Hpost, (response_text_unexpected data Hshape).
  - intros Hb Hm. unfold post_message, post_message_handler. run_m.
    cbn [MessageBody.botId MessageBody.message].
    rewrite (falsy_some _ Hb), (falsy_some _ Hm). cbn [orb default]. unfold id.
    rewrite Hrun. eexists. reflexivity.
Qed.

Lemma C6_inference_outcomes_witness :
  handleChat sample_env_keyed "bot-1" "Cat food?" sample_world
  = (sample_world,
     Ret (local_reply sample_bot (foundText sample_docs "Cat food?") "Cat food?"))
  /\ exists r,
       post_message sample_env_keyed (MessageBody.mk (Some "bot-1") (Some "Cat food?"))
                    sample_world
       = (sample_world, Response 200 (BChat r)).
Proof.
  destruct (C6_inference_outcomes sample_env_keyed "bot-1" "Cat food?"
              sample_world sample_bot sample_docs sample_getBot
              sample_getBotDocuments) as [_ [Hrej [_ [_ Hroute]]]].
  - discriminate.
  - split; [exact (Hrej timeout_error eq_refl) | apply Hroute; discriminate].
Defined.

(** C6 as stated fails: a 200 answer whose body has another shape is a
    malformed response, yet the reply is not the one of the local branches
    but the serialized body. *)
Lemma C6_counterexample :
  unexpected_shape overloaded
  /\ Json.safe overloaded = true
  /\ handleChat odd_env "bot-1" "Cat food?" sample_world
     = (sample_world,
        Ret (Chat.mk (JStr (Json.stringify overloaded)) ["Pricing"; "Contact"]))
  /\ local_reply sample_bot (foundText sample_docs "Cat food?") "Cat food?"
     = Chat.mk (JStr "The cat sat") ["Pricing"; "Contact"]
  /\ handleChat odd_env "bot-1" "Cat food?" sample_world
     <> (sample_world,
         Ret (local_reply sample_bot (foundText sample_docs "Cat food?") "Cat food?")).
Proof.
  split; [repeat split; discriminate|].
  split; [reflexivity|].
  split; [vm_compute; reflexivity|].
  split; [vm_compute; reflexivity|].
  vm_compute. discriminate.
Qed.

(** C7. For an existing bot, whatever the credential, the provider's answer
    and the message, [handleChat] returns a result whose [quickReplies] is
    the list [getBot] read for the bot. *)
Theorem C7_quick_replies_unchanged (e : env) (botId message : string) (w : world)
        (bot : Bot.t) :
  getBot botId w = (w, Ret (Some bot)) ->
  exists reply,
    handleChat e botId message w = (w, Ret (Chat.mk reply (Bot.quickReplies bot))).
Proof.
  intros Hbot.
  rewrite (handleChat_found e botId message w bot _ Hbot (getBotDocuments_eq botId w)).
  set (ctx := foundText _ message).
  assert (Hlocal : exists reply,
             local_reply bot ctx message = Chat.mk reply (Bot.quickReplies bot)).
  { exists (Chat.reply (local_reply bot ctx message)).
    rewrite <- (local_reply_quickReplies bot ctx message).
    now destruct (local_reply bot ctx message). }
  destruct Hlocal as [r Hr].
  destruct (JS.truthy (HF_API_KEY e)); [|exists r; now rewrite Hr].
  destruct (generate e ctx message) as [text|err];
    [now exists text | exists r; now rewrite Hr].
Qed.

Lemma C7_quick_replies_unchanged_witness :
  exists reply,
    handleChat sample_env_keyed "bot-1" "hello" sample_world
    = (sample_world, Ret (Chat.mk reply ["Pricing"; "Contact"])).
Proof.
  exact (C7_quick_replies_unchanged sample_env_keyed "bot-1" "hello" sample_world
           sample_bot sample_getBot).
Defined.

(** ** Determinism without a credential *)

Lemma handleChat_world (e : env) (botId message : string) (w : world) :
  fst (handleChat e botId message w) = w.
Proof.
  unfold handleChat. run_m. pose proof (getBot_world botId w) as Hw.
  destruct (getBot botId w) as [w' [[bot|]|err]]; cbn [fst] in Hw; subst w';
    try reflexivity.
  unfold getBotDocuments. run_m.
  destruct (JS.truthy (HF_API_KEY e)); [|reflexivity].
  now destruct (generate e _ message).
Qed.

Lemma handleChat_no_key (e1 e2 : env) (botId message : string) (w : world) :
  HF_API_KEY e1 = EmptyString -> HF_API_KEY e2 = EmptyString ->
  handleChat e1 botId message w = handleChat e2 botId message w.
Proof.
  intros H1 H2. unfold handleChat. run_m. rewrite H1, H2. reflexivity.
Qed.

(** C9. Without a credential the result of [handleChat], and the answer of
    [POST /api/message], depend only on the store, the [botId] and the
    message - not on the provider, the clock or the identifier source - the
    store after the call is the store before it, and a second call made
    after the first returns what the first returned. *)
Theorem C9_chat_deterministic (e1 e2 : env) (botId message : string) (w : world) :
  HF_API_KEY e1 = EmptyString -> HF_API_KEY e2 = EmptyString ->
  handleChat e1 botId message w = handleChat e2 botId message w
  /\ fst (handleChat e1 botId message w) = w
  /\ handleChat e2 botId message (fst (handleChat e1 botId message w))
     = handleChat e1 botId message w
  /\ (forall b, post_message e1 b w = post_message e2 b w
                /\ fst (post_message e1 b w) = w).
Proof.
  intros H1 H2. split; [now apply handleChat_no_key|].
  split; [apply handleChat_world|].
  split; [rewrite handleChat_world; symmetry; now apply handleChat_no_key|].
  intros b.
  unfold post_message, post_message_handler. run_m.
  destruct (JS.falsy (MessageBody.botId b) || JS.falsy (MessageBody.message b));
    [split; reflexivity|].
  rewrite (handleChat_no_key e1 e2 _ _ w H1 H2).
  pose proof (handleChat_world e2 (default EmptyString (MessageBody.botId b))
                (default EmptyString (MessageBody.message b)) w) as Hw.
  destruct (handleChat e2 _ _ w) as [w' [r|err]]; cbn [fst] in Hw; subst w';
    split; reflexivity.
Qed.

Lemma C9_chat_deterministic_witness :
  handleChat sample_env "bot-1" "Cat food?" sample_world
  = handleChat other_env "bot-1" "Cat food?" sample_world
  /\ fst (handleChat sample_env "bot-1" "Cat food?" sample_world) = sample_world
  /\ handleChat other_env "bot-1" "Cat food?"
       (fst (handleChat sample_env "bot-1" "Cat food?" sample_world))
     = handleChat sample_env "bot-1" "Cat food?" sample_world
  /\ (forall b, post_message sample_env b sample_world = post_message other_env b sample_world
                /\ fst (post_message sample_env b sample_world) = sample_world).
Proof.
  apply (C9_chat_deterministic sample_env other_env "bot-1" "Cat food?" sample_world);
    reflexivity.
Defined.

(** * Further properties of the routes *)

(** ** The stored form of [quickReplies] *)

(** X1. Whatever strings a quick-reply list holds (quotes, backslashes and
    control characters included), the text [JSON.stringify] writes for it is
    never empty and [JSON.parse] reads the same list back from it. *)
Theorem quick_replies_codec_roundtrip (l : list string) :
  JS.truthy (Json.stringify_strings l) = true
  /\ JSON_parse (Json.stringify_strings l) = Ret l.
Proof. split; [apply stringify_strings_truthy | apply JSON_parse_stringify]. Qed.

(** ** Creating a bot *)

Lemma falsy_true_inv (a : option string) :
  JS.falsy a = true <-> a = None \/ a = Some EmptyString.
Proof.
  destruct a as [[|c r]|]; cbn; split; auto; try discriminate;
    intros [H|H]; discriminate.
Qed.

Lemma falsy_false_inv (a : option string) :
  JS.falsy a = false <-> exists s, a = Some s /\ s <> EmptyString.
Proof.
  destruct a as [[|c r]|]; cbn; split; try discriminate.
  - intros [s [H Hs]]. injection H as <-. congruence.
  - intros _. eexists. split; [reflexivity | discriminate].
  - reflexivity.
  - intros [s [H _]]. discriminate.
Qed.

(** X2. [POST /api/bot] answers 400 exactly when [name] is absent or empty,
    and then the world is unchanged.  When it answers 200, the identifier
    returned was unused before, it is in the store afterwards, every other
    bot is as it was, and documents and uploads are untouched. *)
Theorem create_outcomes (e : env) (b : BotBody.t) (w : world) :
  (status (snd (post_bot e b w)) = 400
   <-> BotBody.name b = None \/ BotBody.name b = Some EmptyString)
  /\ (status (snd (post_bot e b w)) = 400 -> fst (post_bot e b w) = w)
  /\ (forall w' id,
        post_bot e b w = (w', Response 200 (BBotId id)) ->
        bots w !! id = None
        /\ is_Some (bots w' !! id)
        /\ (forall id', id' <> id -> bots w' !! id' = bots w !! id')
        /\ documents w' = documents w
        /\ uploads w' = uploads w).
Proof.
  split; [|split].
  - rewrite <- falsy_true_inv.
    unfold post_bot, post_bot_handler, createBotRecord. run_m.
    destruct (JS.falsy (BotBody.name b)); cbn [NewBot.id].
    + split; reflexivity.
    + destruct (bots w !! uuidv4 e); cbn; split; discriminate.
  - unfold post_bot, post_bot_handler, createBotRecord. run_m.
    destruct (JS.falsy (BotBody.name b)); cbn [NewBot.id]; [reflexivity|].
    destruct (bots w !! uuidv4 e); cbn; [reflexivity | discriminate].
  - intros w' id Hpost.
    destruct (post_bot_created e b w w' id Hpost) as [n [Hn [Hne [Hfresh ->]]]].
    rewrite (post_bot_fresh e b n w Hn Hne Hfresh) in Hpost. injection Hpost as <-.
    cbn [bots documents uploads]. split; [exact Hfresh|].
    split; [rewrite lookup_insert_eq; eauto|].
    split; [intros id' Hid'; now rewrite lookup_insert_ne | split; reflexivity].
Qed.

(** ** Updating the settings *)

Lemma post_settings_missing (botId : string) (p : Patch.t) (w : world) :
  bots w !! botId = None ->
  post_settings botId p w = (w, Response 404 (BError "bot not found")).
Proof.
  intros H. unfold post_settings, post_settings_handler. run_m.
  now rewrite (getBot_missing _ _ H).
Qed.

Lemma getBot_cases (id : string) (w : world) :
  (exists bot, getBot id w = (w, Ret (Some bot)))
  \/ getBot id w = (w, Ret None)
  \/ (exists err, getBot id w = (w, Throw err)).
Proof.
  pose proof (getBot_world id w) as Hw.
  destruct (getBot id w) as [w' [[bot|]|err]]; cbn [fst] in Hw; subst w'; eauto.
Qed.

Lemma opt_or_twice (a : option string) (b : string) :
  JS.opt_or a (JS.opt_or a b) = JS.opt_or a b.
Proof. now destruct a as [[|c s]|]. Qed.

Lemma arr_or_twice {A} (a : option (list A)) (b : list A) :
  JS.arr_or a (JS.arr_or a b) = JS.arr_or a b.
Proof. now destruct a. Qed.

(** X3. An update touches nothing but the settings of its bot: the row keeps
    its [id], [name] and [createdAt], every other bot is as it was, and
    documents and uploads are untouched. *)
Theorem update_frame (botId : string) (p : Patch.t) (w : world) (bot : Bot.t)
        (row : Row.t) :
  getBot botId w = (w, Ret (Some bot)) ->
  bots w !! botId = Some row ->
  exists w' row',
    post_settings botId p w = (w', Response 200 BOk)
    /\ bots w' !! botId = Some row'
    /\ Row.id row' = Row.id row
    /\ Row.name row' = Row.name row
    /\ Row.createdAt row' = Row.createdAt row
    /\ (forall id', id' <> botId -> bots w' !! id' = bots w !! id')
    /\ documents w' = documents w
    /\ uploads w' = uploads w.
Proof.
  intros Hbot Hrow. rewrite (post_settings_found _ p _ _ Hbot).
  eexists _, _. split; [reflexivity|]. cbn [bots documents uploads].
  split; [rewrite lookup_alter_eq, Hrow; reflexivity|]. cbn.
  repeat split. intros id' Hid'. now rewrite lookup_alter_ne.
Qed.

Lemma update_frame_witness :
  exists w' row',
    post_settings "bot-1" (Patch.mk (Some "new.png") None None (Some [])) sample_world
    = (w', Response 200 BOk)
    /\ bots w' !! "bot-1" = Some row'
    /\ Row.id row' = Row.id sample_row
    /\ Row.name row' = Row.name sample_row
    /\ Row.createdAt row' = Row.createdAt sample_row
    /\ (forall id', id' <> "bot-1" -> bots w' !! id' = bots sample_world !! id')
    /\ documents w' = documents sample_world
    /\ uploads w' = uploads sample_world.
Proof.
  apply (update_frame "bot-1" (Patch.mk (Some "new.png") None None (Some []))
           sample_world sample_bot sample_row sample_getBot).
  vm_compute. reflexivity.
Defined.

(** X4. Sending the same patch a second time changes nothing more: the world
    after two identical updates is the world after the first. *)
Theorem update_idempotent (botId : string) (p : Patch.t) (w : world) :
  fst (post_settings botId p (fst (post_settings botId p w)))
  = fst (post_settings botId p w).
Proof.
  destruct (getBot_cases botId w) as [[bot Hbot]|[Hnone|[err Herr]]].
  - destruct (getBot_found _ _ _ _ Hbot) as [_ [row [Hrow [Hid [Hname [Hav [Hth [Hwe Hcr]]]]]]]].
    rewrite (post_settings_found _ p _ _ Hbot). cbn [fst].
    set (l1 := JS.arr_or (Patch.quickReplies p) (Bot.quickReplies bot)).
    set (f1 := update_row (JS.opt_or (Patch.avatar p) (Bot.avatar bot))
                 (JS.opt_or (Patch.themeColor p) (Bot.themeColor bot))
                 (JS.opt_or (Patch.welcome p) (Bot.welcome bot))
                 (Json.stringify_strings l1)).
    set (w1 := World (alter f1 botId (bots w)) (documents w) (uploads w)).
    assert (Hbot1 : getBot botId w1
                    = (w1, Ret (Some (Bot.mk (Row.id (f1 row)) (Row.name (f1 row))
                                        (Row.avatar (f1 row)) (Row.themeColor (f1 row))
                                        (Row.welcome (f1 row)) l1 (Row.createdAt (f1 row)))))).
    { apply getBot_stored; [|reflexivity].
      unfold w1. cbn [bots]. now rewrite lookup_alter_eq, Hrow. }
    rewrite (post_settings_found _ p _ _ Hbot1). cbn [fst Bot.avatar Bot.themeColor
      Bot.welcome Bot.quickReplies]. unfold w1. cbn [bots documents uploads].
    f_equal.
    apply map_eq. intros i. destruct (decide (i = botId)) as [->|Hne].
    + rewrite !lookup_alter_eq, Hrow. subst f1 l1. cbn.
      now rewrite !opt_or_twice, arr_or_twice.
    + now rewrite !lookup_alter_ne.
  - apply getBot_absent in Hnone as [_ Hnone].
    rewrite (post_settings_missing _ p _ Hnone). cbn [fst].
    now rewrite (post_settings_missing _ p _ Hnone).
  - assert (H : post_settings botId p w = (w, Response 500 (BUnhandled err))).
    { unfold post_settings, post_settings_handler. run_m. now rewrite Herr. }
    rewrite H. cbn [fst]. now rewrite H.
Qed.

(** X5. A patch that supplies no field changes no setting: [getBot] returns
    the same bot after it. *)
Theorem empty_patch_keeps_bot (botId : string) (w : world) (bot : Bot.t) :
  getBot botId w = (w, Ret (Some bot)) ->
  exists w',
    post_settings botId (Patch.mk None None None None) w = (w', Response 200 BOk)
    /\ getBot botId w' = (w', Ret (Some bot)).
Proof.
  intros Hbot.
  destruct (getBot_found _ _ _ _ Hbot) as [_ [row [Hrow [Hid [Hname [Hav [Hth [Hwe Hcr]]]]]]]].
  rewrite (post_settings_found _ _ _ _ Hbot). eexists. split; [reflexivity|].
  cbn [Patch.avatar Patch.themeColor Patch.welcome Patch.quickReplies JS.opt_or JS.arr_or].
  erewrite getBot_stored;
    [| cbn [bots]; rewrite lookup_alter_eq, Hrow; reflexivity | reflexivity].
  cbn. rewrite <- Hid, <- Hname, <- Hcr. now destruct bot.
Qed.

Lemma empty_patch_keeps_bot_witness :
  exists w',
    post_settings "bot-1" (Patch.mk None None None None) sample_world
    = (w', Response 200 BOk)
    /\ getBot "bot-1" w' = (w', Ret (Some sample_bot)).
Proof. exact (empty_patch_keeps_bot "bot-1" sample_world sample_bot sample_getBot). Defined.

(** ** Uploading a document *)

Ltac upload_cases e botId file w :=
  unfold post_upload, post_upload_handler, saveDocument, unlinkSync,
    readFileSync_utf8, readFileSync;
  run_m;
  let Hw := fresh "Hw" in
  pose proof (getBot_world botId w) as Hw;
  destruct (getBot botId w) as [?w [[?bot|]|?err]]; cbn [fst] in Hw; subst;
  [ destruct file as [?f|];
    [ destruct (String.eqb (File.mimetype f) "application/pdf"
                || JS.endsWith (File.originalname f) ".pdf");
      destruct (uploads w !! File.path f) as [?content|] eqn:?Hfile;
      [ destruct (pdf e content) as [?text|?err];
        [ destruct (existsb (fun d => String.eqb (Doc.id d) (uuidv4 e)) (documents w));
          cbn [uploads]; rewrite ?Hfile
        | ]
      |
      | destruct (existsb (fun d => String.eqb (Doc.id d) (uuidv4 e)) (documents w));
        cbn [uploads]; rewrite ?Hfile
      | ]
    | ]
  | | ].

(** X6. An upload is all or nothing.  The route answers 200, 400, 404 or 500;
    unless it answers 200 the world is unchanged (no document row, the
    temporary file where it was); when it answers 200, exactly one document
    was appended, carrying the drawn identifier, the [botId], the original
    file name and the clock value, and the temporary file is gone. *)
Theorem upload_all_or_nothing (e : env) (botId : string) (file : option File.t)
        (w : world) :
  (status (snd (post_upload e botId file w)) = 200
   \/ status (snd (post_upload e botId file w)) = 400
   \/ status (snd (post_upload e botId file w)) = 404
   \/ status (snd (post_upload e botId file w)) = 500)
  /\ (status (snd (post_upload e botId file w)) <> 200 ->
      fst (post_upload e botId file w) = w)
  /\ (status (snd (post_upload e botId file w)) = 200 ->
      exists f content text,
        file = Some f
        /\ uploads w !! File.path f = Some content
        /\ snd (post_upload e botId file w) = Response 200 (BUploaded (File.originalname f))
        /\ fst (post_upload e botId file w)
           = World (bots w)
                   (documents w ++ [Doc.mk (uuidv4 e) botId (File.originalname f) text
                                           (Date_now e)])
                   (delete (File.path f) (uploads w))).
Proof.
  split; [|split].
  - upload_cases e botId file w; cbn; auto.
  - upload_cases e botId file w; cbn; congruence.
  - upload_cases e botId file w; cbn; try discriminate; intros _;
      eexists _, _, _; (split; [reflexivity|]); (split; [eassumption|]);
      split; reflexivity.
Qed.

(** X7. An upload for a [botId] no bot has is answered 404 whatever the file,
    and the world is unchanged: no document row is written.  An upload
    without file for an existing bot is answered 400, the world unchanged. *)
Theorem upload_rejections (e : env) (botId : string) (w : world) :
  (bots w !! botId = None ->
   forall file,
     post_upload e botId file w = (w, Response 404 (BError "bot not found")))
  /\ (forall bot,
        getBot botId w = (w, Ret (Some bot)) ->
        post_upload e botId None w = (w, Response 400 (BError "file required"))).
Proof.
  split.
  - intros H file. unfold post_upload, post_upload_handler. run_m.
    now rewrite (getBot_missing _ _ H).
  - intros bot H. unfold post_upload, post_upload_handler. run_m. now rewrite H.
Qed.

Lemma upload_rejections_witness :
  post_upload sample_env "ghost" (Some sample_file) sample_world
  = (sample_world, Response 404 (BError "bot not found"))
  /\ post_upload sample_env "bot-1" None sample_world
     = (sample_world, Response 400 (BError "file required")).
Proof.
  destruct (upload_rejections sample_env "ghost" sample_world) as [H404 _].
  destruct (upload_rejections sample_env "bot-1" sample_world) as [_ H400].
  split; [apply H404; vm_compute; reflexivity | exact (H400 sample_bot sample_getBot)].
Defined.

Lemma filter_snoc_own (botId : string) (docs : list Doc.t) (d : Doc.t) :
  Doc.botId d = botId ->
  List.filter (fun x => String.eqb (Doc.botId x) botId) (docs ++ [d])
  = (List.filter (fun x => String.eqb (Doc.botId x) botId) docs ++ [d])%list.
Proof.
  intros H. rewrite List.filter_app. cbn [List.filter].
  now rewrite H, String.eqb_refl.
Qed.

Lemma decode_ascii_only (bytes : string) :
  Utf8.ascii_only bytes = true -> Utf8.decode bytes = Some bytes.
Proof.
  induction bytes as [|b rest IH]; [reflexivity|]. cbn [Utf8.ascii_only Utf8.decode].
  intros H. apply andb_true_iff in H as [Hb Hrest]. now rewrite Hb, (IH Hrest).
Qed.

Lemma toString_decoded (bytes text : string) :
  Utf8.decode bytes = Some text -> Utf8.toString bytes = text.
Proof. intros H. unfold Utf8.toString. now rewrite H. Qed.

Lemma upload_text_documents (e : env) (botId : string) (f : File.t) (w : world)
      (bot : Bot.t) (content text : string) (docs : list Doc.t) :
  getBot botId w = (w, Ret (Some bot)) ->
  getBotDocuments botId w = (w, Ret docs) ->
  is_pdf f = false ->
  uploads w !! File.path f = Some content ->
  Utf8.decode content = Some text ->
  existsb (fun d => String.eqb (Doc.id d) (uuidv4 e)) (documents w) = false ->
  exists w',
    post_upload e botId (Some f) w = (w', Response 200 (BUploaded (File.originalname f)))
    /\ getBotDocuments botId w'
       = (w', Ret (docs ++ [Doc.mk (uuidv4 e) botId (File.originalname f) text
                                   (Date_now e)])%list)
    /\ uploads w' !! File.path f = None
    /\ bots w' = bots w.
Proof.
  intros Hbot Hdocs Hpdf Hfile Htext Hid.
  rewrite (upload_text_ok e botId f w bot content Hbot Hpdf Hfile Hid).
  rewrite (toString_decoded content text Htext).
  eexists. split; [reflexivity|].
  rewrite getBotDocuments_eq in Hdocs. injection Hdocs as <-.
  rewrite getBotDocuments_eq. cbn [documents uploads bots].
  rewrite filter_snoc_own by reflexivity.
  split; [reflexivity|]. split; [apply lookup_delete_eq | reflexivity].
Qed.

(** X8. A file that is not a PDF is stored as the text its bytes encode in
    UTF-8: after the upload the documents of the bot are the former ones
    followed by one whose [text] is that decoding, under the original file
    name; for a file of ASCII bytes the text is the content, unchanged.  The
    temporary file is gone and the bots are untouched. *)
Theorem upload_text_stored_decoded (e : env) (botId : string) (f : File.t)
        (w : world) (bot : Bot.t) (content text : string) (docs : list Doc.t) :
  getBot botId w = (w, Ret (Some bot)) ->
  getBotDocuments botId w = (w, Ret docs) ->
  is_pdf f = false ->
  uploads w !! File.path f = Some content ->
  Utf8.decode content = Some text ->
  existsb (fun d => String.eqb (Doc.id d) (uuidv4 e)) (documents w) = false ->
  exists w' d,
    post_upload e botId (Some f) w = (w', Response 200 (BUploaded (File.originalname f)))
    /\ getBotDocuments botId w' = (w', Ret (docs ++ [d])%list)
    /\ Doc.text d = text
    /\ (Utf8.ascii_only content = true -> Doc.text d = content)
    /\ Doc.filename d = File.originalname f
    /\ Doc.botId d = botId
    /\ uploads w' !! File.path f = None
    /\ bots w' = bots w.
Proof.
  intros Hbot Hdocs Hpdf Hfile Htext Hid.
  destruct (upload_text_documents e botId f w bot content text docs
              Hbot Hdocs Hpdf Hfile Htext Hid)
    as [w' [Hpost [Hget [Hgone Hbots]]]].
  eexists w', _. split; [exact Hpost|]. split; [exact Hget|].
  split; [reflexivity|]. split.
  - intros Hascii. cbn [Doc.text].
    rewrite (decode_ascii_only content Hascii) in Htext. now injection Htext.
  - repeat split; assumption.
Qed.

Lemma fresh_getBot : getBot "bot-1" fresh_world = (fresh_world, Ret (Some sample_bot)).
Proof. vm_compute. reflexivity. Qed.

Lemma cafe_getBot : getBot "bot-1" cafe_world = (cafe_world, Ret (Some sample_bot)).
Proof. vm_compute. reflexivity. Qed.

Lemma upload_text_stored_decoded_witness :
  exists w' d,
    post_upload sample_env "bot-1" (Some cafe_file) cafe_world
    = (w', Response 200 (BUploaded "cafe.txt"))
    /\ getBotDocuments "bot-1" w' = (w', Ret ([] ++ [d])%list)
    /\ Doc.text d = cafe_text
    /\ (Utf8.ascii_only cafe_bytes = true -> Doc.text d = cafe_bytes)
    /\ Doc.filename d = "cafe.txt"
    /\ Doc.botId d = "bot-1"
    /\ uploads w' !! "uploads/c4f3" = None
    /\ bots w' = bots cafe_world.
Proof.
  apply (upload_text_stored_decoded sample_env "bot-1" cafe_file cafe_world
           sample_bot cafe_bytes cafe_text [] cafe_getBot);
    reflexivity.
Defined.

Example upload_ascii_text_verbatim :
  documents (fst (post_upload sample_env "bot-1" (Some hours_file) fresh_world))
  = [hours_doc].
Proof. vm_compute. reflexivity. Qed.

Example upload_text_two_byte_letter :
  String.length cafe_bytes = 5
  /\ List.map Doc.text (documents (fst (post_upload sample_env "bot-1" (Some cafe_file) cafe_world)))
     = [cafe_text]
  /\ String.length cafe_text = 4.
Proof. repeat split; vm_compute; reflexivity. Qed.

(** X9. Upload, then chat.  Once a text file whose bytes encode a non-empty
    text is stored for a bot, a message whose first field occurs in the
    lowercased text, and in no earlier document of the bot, gets the first
    800 code units of that text as context; without a credential and
    without a greeting the reply is the first four lines of it. *)
Theorem upload_then_chat (e : env) (botId : string) (f : File.t) (w : world)
        (bot : Bot.t) (content text : string) (docs : list Doc.t)
        (message tok : string) :
  getBot botId w = (w, Ret (Some bot)) ->
  getBotDocuments botId w = (w, Ret docs) ->
  is_pdf f = false ->
  uploads w !! File.path f = Some content ->
  Utf8.decode content = Some text ->
  existsb (fun d => String.eqb (Doc.id d) (uuidv4 e)) (documents w) = false ->
  first_field JS.space (JS.toLowerCase message) tok ->
  Forall (fun x => ~ doc_matches tok x) docs ->
  text <> EmptyString ->
  contains (JS.toLowerCase text) tok ->
  HF_API_KEY e = EmptyString ->
  ~ contains (JS.toLowerCase message) "hello" ->
  ~ contains (JS.toLowerCase message) "hi" ->
  exists w',
    post_upload e botId (Some f) w = (w', Response 200 (BUploaded (File.originalname f)))
    /\ handleChat e botId message w'
       = (w', Ret (Chat.mk
                     (JStr (JS.join (JS.chr JS.newline)
                              (take 4 (JS.split JS.newline (JS.slice0 800 text)))))
                     (Bot.quickReplies bot))).
Proof.
  intros Hbot Hdocs Hpdf Hfile Htext Hid Htok Hold Hne Hin Hkey Hhello Hhi.
  destruct (upload_text_documents e botId f w bot content text docs
              Hbot Hdocs Hpdf Hfile Htext Hid)
    as [w' [Hpost [Hget [_ Hbots]]]].
  exists w'. split; [exact Hpost|].
  assert (Hbot' : getBot botId w' = (w', Ret (Some bot))).
  { unfold getBot in *. run_m. rewrite Hbots.
    destruct (bots w !! botId) as [row|]; [|discriminate].
    destruct (JS.truthy (Row.quickReplies row)).
    - destruct (JSON_parse (Row.quickReplies row)); [|discriminate].
      now injection Hbot as ->.
    - now injection Hbot as ->. }
  rewrite (handleChat_found e botId message w' bot _ Hbot' Hget), Hkey.
  cbn [JS.truthy]. unfold local_reply.
  apply includes_false in Hhello, Hhi. rewrite Hhello, Hhi. cbn [orb].
  rewrite (foundText_first docs _ [] message tok Htok Hold) by (split; assumption).
  cbn [Doc.text]. rewrite slice0_truthy.
  apply truthy_true in Hne as Hne'. rewrite Hne'.
  rewrite or_else_truthy; [reflexivity|].
  apply excerpt_nonempty. apply truthy_true. now rewrite slice0_truthy.
Qed.

Lemma upload_then_chat_witness :
  exists w',
    post_upload sample_env "bot-1" (Some cafe_file) cafe_world
    = (w', Response 200 (BUploaded "cafe.txt"))
    /\ handleChat sample_env "bot-1" "Caf menu?" w'
       = (w', Ret (Chat.mk
                     (JStr (JS.join (JS.chr JS.newline)
                              (take 4 (JS.split JS.newline (JS.slice0 800 cafe_text)))))
                     ["Pricing"; "Contact"])).
Proof.
  apply (upload_then_chat sample_env "bot-1" cafe_file cafe_world sample_bot
           cafe_bytes cafe_text [] "Caf menu?" "caf" cafe_getBot).
  - reflexivity.
  - reflexivity.
  - reflexivity.
  - reflexivity.
  - reflexivity.
  - split; [cbn; repeat split; discriminate | right; now exists "menu?"].
  - constructor.
  - discriminate.
  - apply includes_spec. reflexivity.
  - reflexivity.
  - apply includes_false. reflexivity.
  - apply includes_false. reflexivity.
Defined.

(** ** The context scan, further *)

Lemma lower_char_idem (c : ascii) : JS.lower_char (JS.lower_char c) = JS.lower_char c.
Proof. destruct c as [[] [] [] [] [] [] [] []]; reflexivity. Qed.

Lemma lower_char_space (c : ascii) : JS.lower_char c = JS.space <-> c = JS.space.
Proof.
  destruct c as [[] [] [] [] [] [] [] []]; cbv; split; intros H;
    first [reflexivity | discriminate H].
Qed.

Lemma toLowerCase_idem (s : string) :
  JS.toLowerCase (JS.toLowerCase s) = JS.toLowerCase s.
Proof.
  induction s as [|c s IH]; [reflexivity|]. cbn [JS.toLowerCase].
  now rewrite lower_char_idem, IH.
Qed.

Lemma toLowerCase_app (a b : string) :
  JS.toLowerCase (a +:+ b) = JS.toLowerCase a +:+ JS.toLowerCase b.
Proof.
  induction a as [|c a IH]; [reflexivity|].
  change (String (JS.lower_char c) (JS.toLowerCase (a +:+ b))
          = String (JS.lower_char c) (JS.toLowerCase a +:+ JS.toLowerCase b)).
  now rewrite IH.
Qed.

Lemma toLowerCase_free (s : string) :
  free_of JS.space s -> free_of JS.space (JS.toLowerCase s).
Proof.
  induction s as [|c s IH]; [trivial|]. intros [Hc Hs]. split; [|now apply IH].
  now rewrite lower_char_space.
Qed.

Lemma foundText_token (docs : list Doc.t) (m1 m2 : string) :
  JS.first (JS.split JS.space (JS.toLowerCase m1))
  = JS.first (JS.split JS.space (JS.toLowerCase m2)) ->
  foundText docs m1 = foundText docs m2.
Proof.
  intros H. induction docs as [|d docs IH]; [reflexivity|].
  cbn [foundText]. now rewrite H, IH.
Qed.

(** X10. A document whose text is empty (a PDF from which nothing was
    extracted) never takes part in the lookup: the context is the one found
    without it, for every message. *)
Theorem context_skips_empty_documents (pre post : list Doc.t) (d : Doc.t)
        (message : string) :
  Doc.text d = EmptyString ->
  foundText (pre ++ d :: post) message = foundText (pre ++ post) message.
Proof.
  intros Hd. induction pre as [|x pre IH].
  - cbn [List.app foundText]. now rewrite Hd.
  - change (foundText (x :: (pre ++ d :: post)%list) message
            = foundText (x :: (pre ++ post)%list) message).
    cbn [foundText]. now rewrite IH.
Qed.

Lemma context_skips_empty_documents_witness :
  foundText ([] ++ Doc.mk "doc-0" "bot-1" "scan.pdf" EmptyString 900 :: sample_docs) " "
  = foundText ([] ++ sample_docs) " ".
Proof.
  apply (context_skips_empty_documents [] sample_docs
           (Doc.mk "doc-0" "bot-1" "scan.pdf" EmptyString 900) " ").
  reflexivity.
Defined.

Lemma slice0_length (n : nat) (s : string) : String.length (JS.slice0 n s) <= n.
Proof.
  destruct (slice0_prefix n s) as [_ H]. rewrite H. apply Nat.le_min_l.
Qed.

(** X11. The context is at most 800 code units long, and it is either empty
    or the first 800 code units of the text of one of the documents scanned,
    a document whose text is not empty. *)
Theorem context_bounds (docs : list Doc.t) (message : string) :
  String.length (foundText docs message) <= 800
  /\ (foundText docs message = EmptyString
      \/ exists d, In d docs
                   /\ Doc.text d <> EmptyString
                   /\ prefix_upto 800 (Doc.text d) (foundText docs message)).
Proof.
  induction docs as [|d docs [IHlen IH]]; cbn [foundText].
  - split; [cbn; lia | now left].
  - destruct (JS.truthy (Doc.text d)
              && JS.includes (JS.toLowerCase (Doc.text d))
                   (JS.first (JS.split JS.space (JS.toLowerCase message)))) eqn:E.
    + split; [apply slice0_length|]. right. exists d.
      apply andb_true_iff in E as [E _]. apply truthy_true in E.
      split; [now left|]. split; [exact E | apply slice0_prefix].
    + split; [exact IHlen|]. destruct IH as [IH|[x [Hin Hx]]]; [now left|].
      right. exists x. split; [now right | exact Hx].
Qed.

(** X12. Only what precedes the first space of the message counts, and case
    does not: two messages whose lowercased forms have the same first field
    get the same context.  In particular the words after the first space
    can be dropped. *)
Theorem context_first_field_only (docs : list Doc.t) (m1 m2 tok : string) :
  first_field JS.space (JS.toLowerCase m1) tok ->
  first_field JS.space (JS.toLowerCase m2) tok ->
  foundText docs m1 = foundText docs m2
  /\ (forall t r, free_of JS.space t ->
        foundText docs (t +:+ String JS.space r) = foundText docs t).
Proof.
  intros H1 H2. split.
  - apply foundText_token. now rewrite (message_token _ _ H1), (message_token _ _ H2).
  - intros t r Ht. apply foundText_token.
    rewrite (message_token (t +:+ String JS.space r) (JS.toLowerCase t)).
    + symmetry. apply message_token. split; [now apply toLowerCase_free | now left].
    + split; [now apply toLowerCase_free|]. right. exists (JS.toLowerCase r).
      rewrite toLowerCase_app. reflexivity.
Qed.

Lemma context_first_field_only_witness :
  foundText sample_docs "DOGS are great" = foundText sample_docs "dogs bark?"
  /\ (forall t r, free_of JS.space t ->
        foundText sample_docs (t +:+ String JS.space r) = foundText sample_docs t).
Proof.
  apply (context_first_field_only sample_docs "DOGS are great" "dogs bark?" "dogs").
  - split; [cbn; repeat split; discriminate | right; now exists "are great"].
  - split; [cbn; repeat split; discriminate | right; now exists "bark?"].
Defined.

(** X13. The lookup does not see the case of the message: the lowercased
    message gets the context of the message. *)
Theorem context_ignores_message_case (docs : list Doc.t) (message : string) :
  foundText docs (JS.toLowerCase message) = foundText docs message.
Proof. apply foundText_token. now rewrite toLowerCase_idem. Qed.

Lemma first_text_eq (docs : list Doc.t) (message : string) :
  JS.first (JS.split JS.space (JS.toLowerCase message)) = EmptyString ->
  foundText docs message = first_text docs.
Proof.
  intros H. induction docs as [|d docs IH]; [reflexivity|].
  cbn [foundText first_text]. rewrite H, IH.
  assert (Hinc : JS.includes (JS.toLowerCase (Doc.text d)) EmptyString = true).
  { apply includes_spec. now exists EmptyString, (JS.toLowerCase (Doc.text d)). }
  rewrite Hinc. now rewrite andb_true_r.
Qed.

(** X14. The empty message, and every message that starts with a space, has
    the empty token, which every text contains: the context is then the
    first 800 code units of the first document that has a text, whatever the
    documents say. *)
Theorem context_of_empty_token (docs : list Doc.t) (message : string) :
  message = EmptyString \/ (exists r, message = String JS.space r) ->
  foundText docs message = first_text docs.
Proof.
  intros [->|[r ->]]; apply first_text_eq; reflexivity.
Qed.

Lemma context_of_empty_token_witness :
  foundText sample_docs " what about dogs" = first_text sample_docs.
Proof.
  apply (context_of_empty_token sample_docs " what about dogs").
  right. now exists "what about dogs".
Defined.

(** ** One bot's chat and the other bots' documents *)

Lemma getBot_snd (id : string) (w1 w2 : world) :
  bots w1 = bots w2 -> snd (getBot id w1) = snd (getBot id w2).
Proof.
  intros H. unfold getBot. run_m. rewrite H.
  destruct (bots w2 !! id) as [row|]; [|reflexivity].
  destruct (JS.truthy (Row.quickReplies row)); [|reflexivity].
  now destruct (JSON_parse (Row.quickReplies row)).
Qed.

Lemma handleChat_snd (e : env) (botId message : string) (w1 w2 : world) :
  bots w1 = bots w2 ->
  List.filter (fun d => String.eqb (Doc.botId d) botId) (documents w1)
  = List.filter (fun d => String.eqb (Doc.botId d) botId) (documents w2) ->
  snd (handleChat e botId message w1) = snd (handleChat e botId message w2).
Proof.
  intros Hb Hd. pose proof (getBot_snd botId w1 w2 Hb) as Hs.
  pose proof (getBot_world botId w1) as H1. pose proof (getBot_world botId w2) as H2.
  unfold handleChat, getBotDocuments. run_m.
  destruct (getBot botId w1) as [w1' [[b1|]|e1]];
    destruct (getBot botId w2) as [w2' [[b2|]|e2]];
    cbn [fst snd] in *; subst; try discriminate; try reflexivity.
  - injection Hs as ->. rewrite Hd.
    destruct (JS.truthy (HF_API_KEY e)); [|reflexivity].
    now destruct (generate e _ message).
  - now injection Hs as ->.
Qed.

Lemma filter_foreign (botId : string) (pre post : list Doc.t) (d : Doc.t) :
  Doc.botId d <> botId ->
  List.filter (fun x => String.eqb (Doc.botId x) botId) (pre ++ d :: post)
  = List.filter (fun x => String.eqb (Doc.botId x) botId) (pre ++ post).
Proof.
  intros H. rewrite !List.filter_app. cbn [List.filter].
  apply String.eqb_neq in H. now rewrite H.
Qed.

(** X15. A chat only sees the documents of its own bot: a document of another
    bot, wherever it sits in the table, changes neither the reply nor the
    error of [handleChat], and the upload directory plays no part. *)
Theorem chat_ignores_foreign_documents (e : env) (botId message : string)
        (rows : gmap string Row.t) (pre post : list Doc.t) (d : Doc.t)
        (up1 up2 : gmap string string) :
  Doc.botId d <> botId ->
  snd (handleChat e botId message (World rows (pre ++ d :: post) up1))
  = snd (handleChat e botId message (World rows (pre ++ post) up2)).
Proof.
  intros H. apply handleChat_snd; [reflexivity|]. cbn [documents].
  now apply filter_foreign.
Qed.

Lemma chat_ignores_foreign_documents_witness :
  snd (handleChat sample_env "bot-1" "secret plans"
         (World (bots sample_world)
                ([] ++ Doc.mk "doc-9" "bot-7" "plans.txt" "secret plans of bot-7" 50
                    :: sample_docs)
                (uploads sample_world)))
  = snd (handleChat sample_env "bot-1" "secret plans"
           (World (bots sample_world) ([] ++ sample_docs) ∅)).
Proof.
  apply (chat_ignores_foreign_documents sample_env "bot-1" "secret plans"
           (bots sample_world) [] sample_docs
           (Doc.mk "doc-9" "bot-7" "plans.txt" "secret plans of bot-7" 50)).
  discriminate.
Defined.

(** ** The excerpt *)

Lemma join_take_prefix (sep : string) (l : list string) :
  forall n, exists r, JS.join sep l = JS.join sep (take n l) +:+ r.
Proof.
  induction l as [|x l IH]; intros n.
  - exists EmptyString. now destruct n.
  - destruct n as [|n]; [now exists (JS.join sep (x :: l))|].
    destruct l as [|y l].
    + exists EmptyString. rewrite str_app_nil_r. now destruct n.
    + destruct (IH n) as [r Hr]. destruct n as [|n].
      * exists (sep +:+ JS.join sep (y :: l)). reflexivity.
      * exists r. rewrite join_cons2, Hr.
        change (take (S (S n)) (x :: y :: l)) with (x :: take (S n) (y :: l)).
        destruct (take (S n) (y :: l)) as [|z t] eqn:E; [discriminate|].
        rewrite join_cons2. now rewrite !str_app_assoc.
Qed.

Lemma count_char_app (c : ascii) (a b : string) :
  count_char c (a +:+ b) = count_char c a + count_char c b.
Proof.
  induction a as [|x a IH]; [reflexivity|].
  change (count_char c (String x (a +:+ b)) = count_char c (String x a) + count_char c b).
  cbn [count_char]. rewrite IH. lia.
Qed.

Lemma count_char_free (c : ascii) (s : string) : free_of c s -> count_char c s = 0.
Proof.
  induction s as [|x s IH]; [reflexivity|]. intros [Hx Hs]. cbn [count_char].
  apply Ascii.eqb_neq in Hx. rewrite Hx, IH by assumption. reflexivity.
Qed.

Lemma count_char_join (c : ascii) (l : list string) :
  Forall (free_of c) l ->
  count_char c (JS.join (JS.chr c) l) = length l - 1.
Proof.
  induction 1 as [|x l Hx Hl IH]; [reflexivity|].
  destruct l as [|y l].
  - cbn [JS.join length]. rewrite count_char_free by assumption. reflexivity.
  - rewrite join_cons2, !count_char_app, IH, count_char_free by assumption.
    cbn [JS.chr count_char length]. rewrite Ascii.eqb_refl. lia.
Qed.

Lemma split_length (c : ascii) (s : string) :
  length (JS.split c s) = S (count_char c s).
Proof.
  induction s as [|x s IH]; [reflexivity|]. cbn [JS.split count_char].
  destruct (Ascii.eqb x c); cbn [length]; [now rewrite IH|].
  pose proof (split_nonempty c s) as Hs.
  destruct (JS.split c s) as [|h t]; [congruence|]. cbn [length] in *. lia.
Qed.

(** X16. The excerpt the context branch replies with - the first four lines
    of the context joined by newlines - is a prefix of the context, holds at
    most three newlines, is the whole context when that has at most three
    newlines, and is not empty when the context is not: the fixed text of
    that branch is never sent. *)
Theorem excerpt_properties (context : string) :
  let excerpt := JS.join (JS.chr JS.newline) (take 4 (JS.split JS.newline context)) in
  (exists r, context = excerpt +:+ r)
  /\ count_char JS.newline excerpt <= 3
  /\ (count_char JS.newline context <= 3 -> excerpt = context)
  /\ (context <> EmptyString ->
      excerpt <> EmptyString
      /\ JS.or_else excerpt found_but_no_answer = excerpt).
Proof.
  cbv zeta. split; [|split; [|split]].
  - destruct (join_take_prefix (JS.chr JS.newline) (JS.split JS.newline context) 4)
      as [r Hr].
    exists r. now rewrite <- Hr, join_split.
  - rewrite count_char_join.
    + rewrite length_take. lia.
    + apply Forall_take, split_free.
  - intros H. rewrite take_ge; [apply join_split|].
    rewrite split_length. lia.
  - intros H. pose proof (excerpt_nonempty context H) as Hne.
    split; [exact Hne | now apply or_else_truthy].
Qed.

(** ** The inference block *)

Lemma response_text_array (data t : json) :
  first_generated_text data = Some t -> Json.truthy t = true ->
  response_text data = Ret t.
Proof.
  intros Hf Ht. unfold response_text. rewrite Hf. cbn [opt_truthy default].
  rewrite Ht. destruct data; try discriminate. reflexivity.
Qed.

Lemma response_text_object (data t : json) :
  is_array data = false -> generated_text data = Some t -> Json.truthy t = true ->
  response_text data = Ret t.
Proof.
  intros Ha Hg Ht. unfold response_text. rewrite Ha, Hg. cbn [andb opt_truthy default].
  rewrite Ht. destruct data; try discriminate. reflexivity.
Qed.

(** X17. With a credential configured the provider is asked first: when it
    answers with an array whose first element carries a truthy
    [generated_text], or with an object that carries one, that value is the
    reply - for every message, a greeting included, and whatever the
    documents hold. *)
Theorem inference_answer_wins (e : env) (botId message : string) (w : world)
        (bot : Bot.t) (docs : list Doc.t) (data t : json) :
  getBot botId w = (w, Ret (Some bot)) ->
  getBotDocuments botId w = (w, Ret docs) ->
  HF_API_KEY e <> EmptyString ->
  axios_post e (prompt (foundText docs message) message) = Ret data ->
  Json.truthy t = true ->
  first_generated_text data = Some t
  \/ (is_array data = false /\ generated_text data = Some t) ->
  handleChat e botId message w = (w, Ret (Chat.mk t (Bot.quickReplies bot))).
Proof.
  intros Hbot Hdocs Hkey Hpost Ht Hshape.
  rewrite (handleChat_found e botId message w bot docs Hbot Hdocs).
  apply truthy_true in Hkey. rewrite Hkey. unfold generate. rewrite Hpost.
  destruct Hshape as [Hf|[Ha Hg]].
  - now rewrite (response_text_array data t Hf Ht).
  - now rewrite (response_text_object data t Ha Hg Ht).
Qed.

Lemma inference_answer_wins_witness :
  handleChat answering_env "bot-1" "hello" sample_world
  = (sample_world, Ret (Chat.mk (JStr "Forty-two.") (Bot.quickReplies sample_bot))).
Proof.
  apply (inference_answer_wins answering_env "bot-1" "hello" sample_world sample_bot
           sample_docs (JArr [JObj [("generated_text", JStr "Forty-two.")]])
           (JStr "Forty-two.") sample_getBot sample_getBotDocuments).
  - discriminate.
  - reflexivity.
  - reflexivity.
  - left. reflexivity.
Defined.

(** ** The message route *)

(** X18. [POST /api/message] never writes and answers 200, 400 or 500, never
    404: the world after it is the world before it, whatever the body, the
    credential and the provider; it answers 400 exactly when [botId] or
    [message] is absent or empty; and a 200 carries a chat result. *)
Theorem message_route_outcomes (e : env) (b : MessageBody.t) (w : world) :
  fst (post_message e b w) = w
  /\ (status (snd (post_message e b w)) = 200
      \/ status (snd (post_message e b w)) = 400
      \/ status (snd (post_message e b w)) = 500)
  /\ (status (snd (post_message e b w)) = 400
      <-> JS.falsy (MessageBody.botId b) = true \/ JS.falsy (MessageBody.message b) = true)
  /\ (status (snd (post_message e b w)) = 200 ->
      exists r, snd (post_message e b w) = Response 200 (BChat r)).
Proof.
  unfold post_message, post_message_handler. run_m.
  destruct (JS.falsy (MessageBody.botId b)); cbn [orb].
  { cbn. repeat split; auto; try discriminate. }
  destruct (JS.falsy (MessageBody.message b)); cbn [orb].
  { cbn. repeat split; auto; try discriminate. }
  pose proof (handleChat_world e (default EmptyString (MessageBody.botId b))
                (default EmptyString (MessageBody.message b)) w) as Hw.
  destruct (handleChat e _ _ w) as [w' [r|err]]; cbn [fst snd status] in *; subst w'.
  - repeat split; auto; try discriminate; try (intros [H|H]; discriminate).
    intros _. now exists r.
  - repeat split; auto; try discriminate; intros [H|H]; discriminate.
Qed.

(** ** The legacy chat route *)

Lemma foundText_of_some (docs : list Doc.t) (m : string) :
  foundText_of docs (Some m) = Ret (foundText docs m).
Proof.
  induction docs as [|d docs IH]; [reflexivity|]. cbn [foundText_of foundText toLowerCase_of].
  destruct (JS.truthy (Doc.text d)); cbn [andb]; [|exact IH].
  now destruct (JS.includes _ _).
Qed.

Lemma handleChat_of_some (e : env) (botId m : string) (w : world) :
  handleChat_of e botId (Some m) w = handleChat e botId m w.
Proof.
  unfold handleChat_of, handleChat. run_m.
  destruct (getBot botId w) as [w' [[bot|]|err]]; try reflexivity.
  unfold getBotDocuments. run_m. rewrite foundText_of_some. reflexivity.
Qed.

(** X19. For a non-empty [botId] and a non-empty message the legacy route
    [POST /api/bot/:botId/chat] and [POST /api/message] give the same
    answer and leave the same world. *)
Theorem legacy_route_agrees (e : env) (botId m : string) (w : world) :
  botId <> EmptyString -> m <> EmptyString ->
  post_chat e botId (Some m) w
  = post_message e (MessageBody.mk (Some botId) (Some m)) w.
Proof.
  intros Hb Hm. unfold post_chat, post_chat_handler, post_message, post_message_handler.
  run_m. cbn [MessageBody.botId MessageBody.message].
  rewrite (falsy_some _ Hb), (falsy_some _ Hm). cbn [orb default]. unfold id.
  now rewrite handleChat_of_some.
Qed.

Lemma legacy_route_agrees_witness :
  post_chat sample_env "bot-1" (Some "Cat food?") sample_world
  = post_message sample_env (MessageBody.mk (Some "bot-1") (Some "Cat food?")) sample_world.
Proof.
  apply (legacy_route_agrees sample_env "bot-1" "Cat food?" sample_world); discriminate.
Defined.

Lemma foundText_of_none_throws (docs : list Doc.t) :
  existsb (fun d => JS.truthy (Doc.text d)) docs = true ->
  foundText_of docs None = Throw undefined_toLowerCase.
Proof.
  induction docs as [|d docs IH]; [discriminate|]. cbn [existsb foundText_of].
  destruct (JS.truthy (Doc.text d)); [reflexivity | exact IH].
Qed.

Lemma foundText_of_none_empty (docs : list Doc.t) :
  existsb (fun d => JS.truthy (Doc.text d)) docs = false ->
  foundText_of docs None = Ret EmptyString.
Proof.
  induction docs as [|d docs IH]; [reflexivity|]. cbn [existsb foundText_of].
  destruct (JS.truthy (Doc.text d)); [discriminate | exact IH].
Qed.

(** X20. The legacy route does not check its body.  With no [message] and an
    existing bot it answers 500 with the [TypeError] text whenever the bot
    has a document with a text, and also whenever no credential is
    configured; it never answers 400, and the world is unchanged. *)
Theorem legacy_route_without_message (e : env) (botId : string) (w : world)
        (bot : Bot.t) (docs : list Doc.t) :
  getBot botId w = (w, Ret (Some bot)) ->
  getBotDocuments botId w = (w, Ret docs) ->
  HF_API_KEY e = EmptyString
  \/ existsb (fun d => JS.truthy (Doc.text d)) docs = true ->
  post_chat e botId None w
  = (w, Response 500
          (BError "Cannot read properties of undefined (reading 'toLowerCase')")).
Proof.
  intros Hbot Hdocs Hcase.
  unfold post_chat, post_chat_handler, handleChat_of. run_m. rewrite Hbot, Hdocs.
  destruct (existsb (fun d => JS.truthy (Doc.text d)) docs) eqn:E.
  - now rewrite (foundText_of_none_throws docs E).
  - rewrite (foundText_of_none_empty docs E).
    destruct Hcase as [Hkey|Hex]; [|discriminate]. now rewrite Hkey.
Qed.

Lemma legacy_route_without_message_witness :
  post_chat sample_env_keyed "bot-1" None sample_world
  = (sample_world,
     Response 500 (BError "Cannot read properties of undefined (reading 'toLowerCase')")).
Proof.
  apply (legacy_route_without_message sample_env_keyed "bot-1" sample_world sample_bot
           sample_docs sample_getBot sample_getBotDocuments).
  right. reflexivity.
Defined.

(** X21. The empty message is refused by [POST /api/message] with 400 but
    accepted by the legacy route: without a credential that one answers 200,
    with the excerpt of the first document that has a text, or the fixed
    don't-know text when the bot has none. *)
Theorem legacy_route_empty_message (e : env) (botId : string) (w : world)
        (bot : Bot.t) (docs : list Doc.t) :
  getBot botId w = (w, Ret (Some bot)) ->
  getBotDocuments botId w = (w, Ret docs) ->
  HF_API_KEY e = EmptyString ->
  post_message e (MessageBody.mk (Some botId) (Some EmptyString)) w
  = (w, Response 400 (BError "botId and message required"))
  /\ post_chat e botId (Some EmptyString) w
     = (w, Response 200
             (BChat (Chat.mk
                       (JStr (if JS.truthy (first_text docs)
                              then JS.join (JS.chr JS.newline)
                                     (take 4 (JS.split JS.newline (first_text docs)))
                              else dont_know))
                       (Bot.quickReplies bot)))).
Proof.
  intros Hbot Hdocs Hkey. split.
  - unfold post_message, post_message_handler. run_m.
    cbn [MessageBody.botId MessageBody.message JS.falsy JS.truthy negb].
    now rewrite orb_true_r.
  - unfold post_chat, post_chat_handler. run_m. rewrite handleChat_of_some.
    rewrite (handleChat_found e botId EmptyString w bot docs Hbot Hdocs), Hkey.
    cbn [JS.truthy]. rewrite (first_text_eq docs EmptyString eq_refl).
    unfold local_reply. cbn [JS.toLowerCase].
    change (JS.includes EmptyString "hello" || JS.includes EmptyString "hi") with false.
    cbv iota. destruct (JS.truthy (first_text docs)) eqn:E; [|reflexivity].
    rewrite or_else_truthy; [reflexivity|].
    apply excerpt_nonempty. now apply truthy_true.
Qed.

Lemma legacy_route_empty_message_witness :
  post_message sample_env (MessageBody.mk (Some "bot-1") (Some EmptyString)) sample_world
  = (sample_world, Response 400 (BError "botId and message required"))
  /\ post_chat sample_env "bot-1" (Some EmptyString) sample_world
     = (sample_world,
        Response 200
          (BChat (Chat.mk
                    (JStr (if JS.truthy (first_text sample_docs)
                           then JS.join (JS.chr JS.newline)
                                  (take 4 (JS.split JS.newline (first_text sample_docs)))
                           else dont_know))
                    (Bot.quickReplies sample_bot)))).
Proof.
  exact (legacy_route_empty_message sample_env "bot-1" sample_world sample_bot
           sample_docs sample_getBot sample_getBotDocuments eq_refl).
Defined.

(** ** The application as a whole *)

Lemma handleChat_of_world (e : env) (botId : string) (message : option string)
      (w : world) :
  fst (handleChat_of e botId message w) = w.
Proof.
  destruct message as [m|]; [rewrite handleChat_of_some; apply handleChat_world|].
  unfold handleChat_of. run_m. pose proof (getBot_world botId w) as Hw.
  destruct (getBot botId w) as [w' [[bot|]|err]]; cbn [fst] in Hw; subst w';
    try reflexivity.
  unfold getBotDocuments. run_m.
  destruct (foundText_of _ None); [|reflexivity].
  destruct (JS.truthy (HF_API_KEY e)); [|reflexivity].
  now destruct (generate e _ _).
Qed.

Lemma post_chat_world (e : env) (botId : string) (message : option string) (w : world) :
  fst (post_chat e botId message w) = w.
Proof.
  unfold post_chat, post_chat_handler. run_m.
  pose proof (handleChat_of_world e botId message w) as Hw.
  now destruct (handleChat_of e botId message w) as [w' [r|err]].
Qed.

Lemma post_message_world (e : env) (b : MessageBody.t) (w : world) :
  fst (post_message e b w) = w.
Proof.
  unfold post_message, post_message_handler. run_m.
  destruct (JS.falsy (MessageBody.botId b) || JS.falsy (MessageBody.message b));
    [reflexivity|].
  pose proof (handleChat_world e (default EmptyString (MessageBody.botId b))
                (default EmptyString (MessageBody.message b)) w) as Hw.
  now destruct (handleChat e _ _ w) as [w' [r|err]].
Qed.

Lemma get_settings_world (botId : string) (w : world) : fst (get_settings botId w) = w.
Proof.
  unfold get_settings, get_settings_handler. run_m.
  pose proof (getBot_world botId w) as Hw.
  now destruct (getBot botId w) as [w' [[bot|]|err]].
Qed.

Lemma post_bot_effect (e : env) (b : BotBody.t) (w : world) :
  effect w (fst (post_bot e b w)).
Proof.
  unfold post_bot, post_bot_handler, createBotRecord. run_m.
  destruct (JS.falsy (BotBody.name b)); [constructor|]. cbn [NewBot.id].
  destruct (bots w !! uuidv4 e) eqn:E; [constructor|]. cbn [fst].
  set (row := Row.mk _ _ _ _ _ _ _).
  exact (eff_new_bot w row _ E eq_refl).
Qed.

Lemma post_settings_effect (botId : string) (p : Patch.t) (w : world) :
  effect w (fst (post_settings botId p w)).
Proof.
  destruct (getBot_cases botId w) as [[bot Hbot]|[Hnone|[err Herr]]].
  - destruct (getBot_found _ _ _ _ Hbot) as [_ [row [Hrow _]]].
    rewrite (post_settings_found _ p _ _ Hbot). cbn [fst].
    eapply eff_settings. exact Hrow.
  - apply getBot_absent in Hnone as [_ Hnone].
    rewrite (post_settings_missing _ p _ Hnone). constructor.
  - unfold post_settings, post_settings_handler. run_m. rewrite Herr. constructor.
Qed.

Lemma post_upload_effect (e : env) (botId : string) (file : option File.t) (w : world) :
  effect w (fst (post_upload e botId file w)).
Proof.
  destruct (getBot_cases botId w) as [[bot Hbot]|[Hnone|[err Herr]]].
  - destruct (getBot_found _ _ _ _ Hbot) as [_ [row [Hrow _]]].
    unfold post_upload, post_upload_handler, saveDocument, unlinkSync,
      readFileSync_utf8, readFileSync.
    run_m. rewrite Hbot.
    destruct file as [f|]; [|constructor].
    destruct (String.eqb (File.mimetype f) "application/pdf"
              || JS.endsWith (File.originalname f) ".pdf");
      destruct (uploads w !! File.path f) as [content|] eqn:Hfile; try constructor.
    + destruct (pdf e content) as [text|perr]; [|constructor].
      destruct (existsb (fun d => String.eqb (Doc.id d) (uuidv4 e)) (documents w)) eqn:E;
        [constructor|].
      cbn [uploads]. rewrite Hfile. cbn [fst bots documents uploads].
      apply (eff_new_doc w (Doc.mk (uuidv4 e) botId _ _ _)); [exact E|].
      cbn [Doc.botId]. rewrite Hrow. eauto.
    + destruct (existsb (fun d => String.eqb (Doc.id d) (uuidv4 e)) (documents w)) eqn:E;
        [constructor|].
      cbn [uploads]. rewrite Hfile. cbn [fst bots documents uploads].
      apply (eff_new_doc w (Doc.mk (uuidv4 e) botId _ _ _)); [exact E|].
      cbn [Doc.botId]. rewrite Hrow. eauto.
  - apply getBot_absent in Hnone as [_ Hnone].
    unfold post_upload, post_upload_handler. run_m.
    rewrite (getBot_missing _ _ Hnone). constructor.
  - unfold post_upload, post_upload_handler. run_m. rewrite Herr. constructor.
Qed.

Lemma app_effect (e : env) (r : request) (w : world) :
  effect w (fst (Server.app e r w)).
Proof.
  destruct r as [|b|botId file|botId|botId message|b|botId p]; cbn [Server.app].
  - constructor.
  - apply post_bot_effect.
  - apply post_upload_effect.
  - rewrite get_settings_world. constructor.
  - rewrite post_chat_world. constructor.
  - rewrite post_message_world. constructor.
  - apply post_settings_effect.
Qed.

Lemma existsb_id_false (id : string) (docs : list Doc.t) :
  existsb (fun x => String.eqb (Doc.id x) id) docs = false ->
  ~ In id (List.map Doc.id docs).
Proof.
  induction docs as [|d docs IH]; [intros _ []|]. cbn [existsb List.map].
  intros H [Hd|Hin]; apply orb_false_iff in H as [H1 H2].
  - apply String.eqb_neq in H1. congruence.
  - now apply IH.
Qed.

Lemma effect_store_ok (w w' : world) : effect w w' -> store_ok w -> store_ok w'.
Proof.
  intros Heff [Hrows [Hids Hown]].
  destruct Heff as [|row l Hfresh Hq|d path Hid Hbot|botId row a t we l Hrow].
  - split; [|split]; assumption.
  - split; [|split].
    + intros id r. cbn [bots]. destruct (decide (Row.id row = id)) as [<-|Hne].
      * rewrite lookup_insert_eq. intros [= <-]. split; [reflexivity | now exists l].
      * rewrite lookup_insert_ne by assumption. apply Hrows.
    + exact Hids.
    + intros x Hx. cbn [bots documents] in *.
      destruct (decide (Row.id row = Doc.botId x)) as [<-|Hne].
      * rewrite lookup_insert_eq. eauto.
      * rewrite lookup_insert_ne by assumption. now apply Hown.
  - split; [exact Hrows|]. split.
    + unfold doc_ids_ok in *. cbn [documents]. rewrite List.map_app. cbn [List.map].
      apply NoDup_app. split; [exact Hids|]. split; [|apply NoDup_singleton].
      intros x Hx Hx'. apply list_elem_of_In in Hx. apply list_elem_of_In in Hx'.
      destruct Hx' as [<-|[]]. now apply (existsb_id_false _ _ Hid).
    + intros x Hx. cbn [bots documents] in *. apply List.in_app_iff in Hx as [Hx|[<-|[]]];
        [now apply Hown | exact Hbot].
  - split; [|split].
    + intros id r. cbn [bots]. destruct (decide (botId = id)) as [<-|Hne].
      * rewrite lookup_alter_eq, Hrow. intros [= <-]. cbn.
        split; [apply (Hrows _ _ Hrow) | now exists l].
      * rewrite lookup_alter_ne by assumption. apply Hrows.
    + exact Hids.
    + intros x Hx. cbn [bots documents] in *.
      destruct (decide (botId = Doc.botId x)) as [<-|Hne].
      * rewrite lookup_alter_eq, Hrow. cbn. eauto.
      * rewrite lookup_alter_ne by assumption. now apply Hown.
Qed.

Lemma effect_extends (w w' : world) : effect w w' -> extends w w'.
Proof.
  intros Heff.
  destruct Heff as [|row l Hfresh Hq|d path Hid Hbot|botId row a t we l Hrow].
  - split; [exists []; now rewrite List.app_nil_r | intros id row H; eauto].
  - split; [exists []; cbn; now rewrite List.app_nil_r|].
    intros id r H. cbn [bots]. exists r.
    rewrite lookup_insert_ne; [auto|]. intros <-. congruence.
  - split; [now exists [d]|]. intros id r H. cbn [bots]. eauto.
  - split; [exists []; cbn; now rewrite List.app_nil_r|].
    intros id r H. cbn [bots]. destruct (decide (botId = id)) as [<-|Hne].
    + rewrite lookup_alter_eq, H. cbn. eauto.
    + rewrite lookup_alter_ne by assumption. eauto.
Qed.

(** X22. The store keeps its shape under every request: if every row sits
    under its own [id] with a well-formed [quickReplies] text, document
    identifiers are pairwise distinct and every document belongs to a bot of
    the store, then the same holds after any request, whatever the
    environment - and it holds of the empty store. *)
Theorem store_shape_preserved (e : env) (r : request) (w : world) :
  store_ok w -> store_ok (fst (Server.app e r w)).
Proof. apply effect_store_ok, app_effect. Qed.

Lemma store_shape_preserved_witness :
  store_ok (fst (Server.app sample_env (PostBot cafe_body) (World ∅ [] ∅))).
Proof.
  apply (store_shape_preserved sample_env (PostBot cafe_body) (World ∅ [] ∅)).
  split; [|split].
  - intros id row H. cbn in H. rewrite lookup_empty in H. discriminate.
  - constructor.
  - intros d [].
Defined.

(** X23. Nothing is ever deleted or renamed: after any request the documents
    of before still head the table, in their order and unchanged, and every
    bot of before is still there under the same [id], [name] and
    [createdAt]. *)
Theorem store_only_grows (e : env) (r : request) (w : world) :
  extends w (fst (Server.app e r w)).
Proof. apply effect_extends, app_effect. Qed.

Lemma reachable_store_ok (w : world) : reachable w -> store_ok w.
Proof.
  induction 1 as [files|w path content _ IH|e r w _ IH].
  - split; [|split].
    + intros id row H. cbn in H. rewrite lookup_empty in H. discriminate.
    + constructor.
    + intros d [].
  - exact IH.
  - eapply effect_store_ok; [apply app_effect | exact IH].
Qed.

(** X24. In every world the application can reach from empty tables, reading
    the settings never fails: [GET /api/bot/:botId/settings] answers 404 for
    an id without row and otherwise 200 with the row's [id], [name],
    [avatar], [themeColor], [welcome] and the list its [quickReplies] text
    stands for - never 500. *)
Theorem settings_never_fail (w : world) (botId : string) :
  reachable w ->
  (bots w !! botId = None ->
   get_settings botId w = (w, Response 404 (BError "bot not found")))
  /\ (forall row, bots w !! botId = Some row ->
        exists l,
          Row.quickReplies row = Json.stringify_strings l
          /\ get_settings botId w
             = (w, Response 200
                     (BSettings (Settings.mk botId (Row.name row) (Row.avatar row)
                                   (Row.themeColor row) (Row.welcome row) l)))).
Proof.
  intros Hreach. destruct (reachable_store_ok w Hreach) as [Hrows _]. split.
  - intros H. unfold get_settings, get_settings_handler. run_m.
    now rewrite (getBot_missing _ _ H).
  - intros row Hrow. destruct (Hrows _ _ Hrow) as [Hid [l Hl]].
    exists l. split; [exact Hl|].
    unfold get_settings, get_settings_handler. run_m.
    rewrite (getBot_stored botId w row l Hrow Hl). cbn. now rewrite Hid.
Qed.

Lemma settings_never_fail_witness :
  (bots (fst (Server.app sample_env (PostBot cafe_body) (World ∅ [] ∅))) !! "id-2" = None ->
   get_settings "id-2" (fst (Server.app sample_env (PostBot cafe_body) (World ∅ [] ∅)))
   = (fst (Server.app sample_env (PostBot cafe_body) (World ∅ [] ∅)),
      Response 404 (BError "bot not found")))
  /\ (forall row,
        bots (fst (Server.app sample_env (PostBot cafe_body) (World ∅ [] ∅))) !! "id-2"
        = Some row ->
        exists l,
          Row.quickReplies row = Json.stringify_strings l
          /\ get_settings "id-2" (fst (Server.app sample_env (PostBot cafe_body) (World ∅ [] ∅)))
             = (fst (Server.app sample_env (PostBot cafe_body) (World ∅ [] ∅)),
                Response 200
                  (BSettings (Settings.mk "id-2" (Row.name row) (Row.avatar row)
                                (Row.themeColor row) (Row.welcome row) l)))).
Proof.
  apply (settings_never_fail (fst (Server.app sample_env (PostBot cafe_body) (World ∅ [] ∅)))
           "id-2").
  apply reach_request, reach_start.
Defined.

(** ** The first listing: inference only *)

Lemma v1_post_bot_created (e : env) (b : BotBody.t) (w w' : world) (id : string) :
  V1.post_bot e b w = (w', Response 200 (BBotId id)) ->
  exists n,
    BotBody.name b = Some n /\ n <> EmptyString /\ id = uuidv4 e
    /\ bots w !! uuidv4 e = None
    /\ w' = World (<[uuidv4 e :=
                      Row.mk (uuidv4 e) n
                             (default EmptyString (BotBody.avatar b))
                             (default "#4CAF50" (BotBody.themeColor b))
                             (default "Hi! How can I help?" (BotBody.welcome b))
                             (Json.stringify_strings (default [] (BotBody.quickReplies b)))
                             (Date_now e)]> (bots w))
                  (documents w) (uploads w).
Proof.
  unfold V1.post_bot, V1.post_bot_handler, createBotRecord. run_m. intros H.
  destruct (BotBody.name b) as [n|]; [|discriminate].
  destruct n as [|c n]; [discriminate|]. cbn [JS.falsy JS.truthy negb] in H.
  cbn [NewBot.id NewBot.name NewBot.avatar NewBot.themeColor NewBot.welcome
       NewBot.quickReplies default] in H.
  destruct (bots w !! uuidv4 e); [discriminate|].
  injection H as <- <-. exists (String c n). repeat split. discriminate.
Qed.

(** X25. In the two earlier listings [POST /api/bot] hands the body's fields
    to [createBotRecord] as they are, so the defaults only replace absent
    fields: reading the settings back returns every supplied string, the
    empty string included, and the default for each omitted field. *)
Theorem early_create_keeps_supplied (e : env) (b : BotBody.t) (w w' : world)
        (id : string) :
  V1.post_bot e b w = (w', Response 200 (BBotId id)) ->
  exists n s,
    BotBody.name b = Some n
    /\ get_settings id w' = (w', Response 200 (BSettings s))
    /\ Settings.id s = id
    /\ Settings.name s = n
    /\ kept_as_supplied (BotBody.avatar b) EmptyString (Settings.avatar s)
    /\ kept_as_supplied (BotBody.themeColor b) "#4CAF50" (Settings.themeColor s)
    /\ kept_as_supplied (BotBody.welcome b) "Hi! How can I help?" (Settings.welcome s)
    /\ Settings.quickReplies s = default [] (BotBody.quickReplies b).
Proof.
  intros Hpost.
  destruct (v1_post_bot_created e b w w' id Hpost) as [n [Hn [_ [-> [_ ->]]]]].
  eexists n, _. split; [exact Hn|]. split.
  - unfold get_settings, get_settings_handler. run_m.
    erewrite getBot_stored;
      [reflexivity | cbn [bots]; apply lookup_insert_eq | reflexivity].
  - cbn. repeat split; try (now destruct (BotBody.avatar b));
      try (now destruct (BotBody.themeColor b)); now destruct (BotBody.welcome b).
Qed.

Lemma early_create_keeps_supplied_witness :
  exists n s,
    BotBody.name blank_body = Some n
    /\ get_settings "id-2" (fst (V1.post_bot sample_env blank_body sample_world))
       = (fst (V1.post_bot sample_env blank_body sample_world), Response 200 (BSettings s))
    /\ Settings.id s = "id-2"
    /\ Settings.name s = n
    /\ kept_as_supplied None EmptyString (Settings.avatar s)
    /\ kept_as_supplied (Some EmptyString) "#4CAF50" (Settings.themeColor s)
    /\ kept_as_supplied (Some "Hello there") "Hi! How can I help?" (Settings.welcome s)
    /\ Settings.quickReplies s = default [] None.
Proof.
  apply (early_create_keeps_supplied sample_env blank_body sample_world
           (fst (V1.post_bot sample_env blank_body sample_world)) "id-2").
  vm_compute. reflexivity.
Defined.

Lemma v1_handleChat_found (e : env) (botId message : string) (w : world)
      (bot : Bot.t) (docs : list Doc.t) :
  getBot botId w = (w, Ret (Some bot)) ->
  getBotDocuments botId w = (w, Ret docs) ->
  V1.handleChat e botId message w
  = (w, Ret (Chat.mk
               (if JS.truthy (HF_API_KEY e)
                then match axios_post e (V1.prompt (foundText docs message) message) with
                     | Ret data =>
                         match V1.reply_of data with
                         | Ret reply => reply
                         | Throw _ => JStr V1.connection_issue
                         end
                     | Throw _ => JStr V1.connection_issue
                     end
                else JStr V1.unavailable)
               (Bot.quickReplies bot))).
Proof.
  intros Hbot Hdocs. unfold V1.handleChat. run_m. rewrite Hbot, Hdocs.
  destruct (JS.truthy (HF_API_KEY e)); cbn [negb]; [|reflexivity].
  destruct (axios_post e _) as [data|err]; [|reflexivity].
  now destruct (V1.reply_of data).
Qed.

(** X26. The first listing answers from the provider only.  For an existing
    bot it never throws and always returns the stored quick replies; without
    a credential the reply is the fixed "unavailable" text, whatever the
    message and the documents; with one, a rejected call or a [null] body
    gives the fixed "issue connecting" text, and a body whose first element
    has no truthy [generated_text] gives the fixed "couldn't generate" text. *)
Theorem v1_chat_replies (e : env) (botId message : string) (w : world)
        (bot : Bot.t) (docs : list Doc.t) :
  getBot botId w = (w, Ret (Some bot)) ->
  getBotDocuments botId w = (w, Ret docs) ->
  (exists reply,
     V1.handleChat e botId message w = (w, Ret (Chat.mk reply (Bot.quickReplies bot))))
  /\ (HF_API_KEY e = EmptyString ->
      V1.handleChat e botId message w
      = (w, Ret (Chat.mk (JStr V1.unavailable) (Bot.quickReplies bot))))
  /\ (HF_API_KEY e <> EmptyString ->
      (forall err,
         axios_post e (V1.prompt (foundText docs message) message) = Throw err ->
         V1.handleChat e botId message w
         = (w, Ret (Chat.mk (JStr V1.connection_issue) (Bot.quickReplies bot))))
      /\ (axios_post e (V1.prompt (foundText docs message) message) = Ret JNull ->
          V1.handleChat e botId message w
          = (w, Ret (Chat.mk (JStr V1.connection_issue) (Bot.quickReplies bot))))
      /\ (forall data x,
            axios_post e (V1.prompt (foundText docs message) message) = Ret data ->
            index0 data = Ret x ->
            opt_truthy (opt_generated_text x) = false ->
            V1.handleChat e botId message w
            = (w, Ret (Chat.mk (JStr V1.no_reply) (Bot.quickReplies bot))))).
Proof.
  intros Hbot Hdocs.
  rewrite (v1_handleChat_found e botId message w bot docs Hbot Hdocs).
  split; [eexists; reflexivity|]. split.
  - intros ->. reflexivity.
  - intros Hkey. apply truthy_true in Hkey. rewrite Hkey. split; [|split].
    + intros err ->. reflexivity.
    + intros ->. reflexivity.
    + intros data x -> Hx Hg. unfold V1.reply_of. now rewrite Hx, Hg.
Qed.

Lemma v1_chat_replies_witness :
  (exists reply,
     V1.handleChat sample_env "bot-1" "hello" sample_world
     = (sample_world, Ret (Chat.mk reply (Bot.quickReplies sample_bot))))
  /\ V1.handleChat sample_env "bot-1" "hello" sample_world
     = (sample_world, Ret (Chat.mk (JStr V1.unavailable) (Bot.quickReplies sample_bot))).
Proof.
  destruct (v1_chat_replies sample_env "bot-1" "hello" sample_world sample_bot
              sample_docs sample_getBot sample_getBotDocuments) as [Hany [Hnokey _]].
  split; [exact Hany | exact (Hnokey eq_refl)].
Defined.

(** ** The second listing: local branches first *)

Lemma v2_handleChat_found (e : env) (botId message : string) (w : world)
      (bot : Bot.t) (docs : list Doc.t) :
  getBot botId w = (w, Ret (Some bot)) ->
  getBotDocuments botId w = (w, Ret docs) ->
  V2.handleChat e botId message w
  = (w, Ret (if JS.includes (JS.toLowerCase message) "hello"
                || JS.includes (JS.toLowerCase message) "hi"
                || JS.truthy (foundText docs message)
             then local_reply bot (foundText docs message) message
             else Chat.mk
                    (match axios_post e message with
                     | Ret data => default (JStr V2.dont_know) (V2.answer_of data)
                     | Throw _ => JStr V2.dont_know
                     end)
                    (Bot.quickReplies bot))).
Proof.
  intros Hbot Hdocs. unfold V2.handleChat, local_reply. run_m. rewrite Hbot, Hdocs.
  destruct (JS.includes (JS.toLowerCase message) "hello"
            || JS.includes (JS.toLowerCase message) "hi"); cbn [orb]; [reflexivity|].
  destruct (JS.truthy (foundText docs message)); [reflexivity|].
  destruct (axios_post e message) as [data|err]; [|reflexivity].
  now destruct (V2.answer_of data).
Qed.

(** X27. The second listing answers locally first.  For an existing bot, a
    greeting or a non-empty context is answered exactly as the local
    branches of the latest listing answer it, without regard to the
    provider; only otherwise is the provider asked (with the bare message),
    and then a rejected call, or an answer in which the guard finds no
    [generated_text], gives the fixed don't-know text of this listing. *)
Theorem v2_chat_local_first (e : env) (botId message : string) (w : world)
        (bot : Bot.t) (docs : list Doc.t) :
  getBot botId w = (w, Ret (Some bot)) ->
  getBotDocuments botId w = (w, Ret docs) ->
  (contains (JS.toLowerCase message) "hello"
   \/ contains (JS.toLowerCase message) "hi"
   \/ foundText docs message <> EmptyString ->
   V2.handleChat e botId message w
   = (w, Ret (local_reply bot (foundText docs message) message)))
  /\ (~ contains (JS.toLowerCase message) "hello" ->
      ~ contains (JS.toLowerCase message) "hi" ->
      foundText docs message = EmptyString ->
      (forall err,
         axios_post e message = Throw err ->
         V2.handleChat e botId message w
         = (w, Ret (Chat.mk (JStr V2.dont_know) (Bot.quickReplies bot))))
      /\ (forall data,
            axios_post e message = Ret data ->
            V2.handleChat e botId message w
            = (w, Ret (Chat.mk (default (JStr V2.dont_know) (V2.answer_of data))
                               (Bot.quickReplies bot))))).
Proof.
  intros Hbot Hdocs.
  rewrite (v2_handleChat_found e botId message w bot docs Hbot Hdocs). split.
  - intros [H|[H|H]].
    + apply includes_spec in H. now rewrite H.
    + apply includes_spec in H. rewrite H. now rewrite orb_true_r.
    + apply truthy_true in H. rewrite H. now rewrite orb_true_r.
  - intros Hhello Hhi Hctx. apply includes_false in Hhello, Hhi.
    rewrite Hhello, Hhi, Hctx. cbn [orb JS.truthy].
    split; [intros err ->; reflexivity | intros data ->; reflexivity].
Qed.

Lemma v2_chat_local_first_witness :
  V2.handleChat answering_env "bot-1" "hello" sample_world
  = (sample_world, Ret (local_reply sample_bot (foundText sample_docs "hello") "hello")).
Proof.
  destruct (v2_chat_local_first answering_env "bot-1" "hello" sample_world sample_bot
              sample_docs sample_getBot sample_getBotDocuments) as [Hlocal _].
  apply Hlocal. left. apply includes_spec. reflexivity.
Defined.

(** ** Which uploads go through the PDF extraction *)

Lemma endsWith_app (a suffix : string) : JS.endsWith (a +:+ suffix) suffix = true.
Proof.
  induction a as [|c a IH].
  - destruct suffix as [|c s]; [reflexivity|].
    change (JS.endsWith (String c s) (String c s) = true).
    cbn [JS.endsWith]. now rewrite String.eqb_refl.
  - change (JS.endsWith (String c (a +:+ suffix)) suffix = true).
    cbn [JS.endsWith]. rewrite IH. apply orb_true_r.
Qed.

(** X28. A file goes through the PDF extraction when its declared type is
    [application/pdf] or its name ends in [.pdf], whichever the other says.
    The stored text is then what the extraction returned, and the empty
    string when it returned no text; the file content itself is not stored. *)
Theorem pdf_upload_stores_extraction (e : env) (botId : string) (f : File.t)
        (w : world) (bot : Bot.t) (content : string) (data : option string) :
  getBot botId w = (w, Ret (Some bot)) ->
  File.mimetype f = "application/pdf"
  \/ (exists stem, File.originalname f = stem +:+ ".pdf") ->
  uploads w !! File.path f = Some content ->
  pdf e content = Ret data ->
  existsb (fun d => String.eqb (Doc.id d) (uuidv4 e)) (documents w) = false ->
  post_upload e botId (Some f) w
  = (World (bots w)
           (documents w ++ [Doc.mk (uuidv4 e) botId (File.originalname f)
                                   (match data with
                                    | Some text => text
                                    | None => EmptyString
                                    end)
                                   (Date_now e)])
           (delete (File.path f) (uploads w)),
     Response 200 (BUploaded (File.originalname f))).
Proof.
  intros Hbot Hkind Hfile Hext Hid.
  assert (Hpdf : is_pdf f = true).
  { unfold is_pdf. destruct Hkind as [->|[stem ->]]; [reflexivity|].
    rewrite endsWith_app. apply orb_true_r. }
  rewrite (upload_pdf_ok e botId f w bot content data Hbot Hpdf Hfile Hext Hid).
  now destruct data as [[|c t]|].
Qed.

Lemma pdf_upload_stores_extraction_witness :
  post_upload blank_pdf_env "bot-1"
    (Some (File.mk "uploads/3f9c" "application/octet-stream" "menu.pdf")) sample_world
  = (World (bots sample_world)
           (documents sample_world
            ++ [Doc.mk "id-2" "bot-1" "menu.pdf" EmptyString 1700])
           (delete "uploads/3f9c" (uploads sample_world)),
     Response 200 (BUploaded "menu.pdf")).
Proof.
  apply (pdf_upload_stores_extraction blank_pdf_env "bot-1"
           (File.mk "uploads/3f9c" "application/octet-stream" "menu.pdf")
           sample_world sample_bot "%PDF-1.4 broken" None sample_getBot).
  - right. now exists "menu".
  - reflexivity.
  - reflexivity.
  - reflexivity.
Defined.
